(** * CertificateManager: protocol dispatch, validation and caching

    A shallow embedding of [protonvpn/services/certificate_manager.py].
    Python values are a small universe [pyval]; exceptions are values of
    [exn]; the methods are computations in a state-and-exception monad over
    a [World] that holds what the methods can touch: the connection state,
    the file system, the crash-report sink, standard output and the trace of
    calls made to collaborators.  The file system is a tree of directories
    and files; a path string is resolved against it the way the kernel does,
    component by component, so that two spellings of a path lead to one
    entry.  Symbolic links, permissions and full disks are not modelled.
    The [logger] calls of the source are not part of the world. *)

From Stdlib Require Import Ascii String.
From stdpp Require Import gmap strings list fin_maps pretty.

Local Open Scope string_scope.
Local Open Scope list_scope.

(** ** Python values and exceptions *)

#[warnings="-register-all"]
Inductive pyval :=
| PNone
| PBool (b : bool)
| PInt (z : Z)
| PStr (s : string)
| PList (l : list pyval)
| PSession (uid : nat).

(** The exception classes that occur in this module.  All of them derive
    from [Exception]; [OtherException] stands for any further such class
    that is none of the listed ones. *)
Inductive exn_class :=
| TypeError
| ValueError
| KeyError
| TemplateNotFound
| IllegalVPNProtocol
| FileNotFoundError
| FileExistsError
| IsADirectoryError
| NotADirectoryError
| OtherException (name : string).

(** [Raised C v] is the exception object [C(v)], [Wrapping C e] is [C(e)]
    for an exception object [e]. *)
Inductive exn :=
| Raised (cls : exn_class) (arg : pyval)
| Wrapping (cls : exn_class) (inner : exn).

Definition class_of (e : exn) : exn_class :=
  match e with
  | Raised c _ => c
  | Wrapping c _ => c
  end.

#[global] Instance exn_class_eq_dec : EqDecision exn_class.
Proof. solve_decision. Defined.

(** [isinstance(v, str)], [isinstance(v, list)], [isinstance(v, Session)]. *)
Definition isinstance_str (v : pyval) : bool :=
  match v with PStr _ => true | _ => false end.

Definition isinstance_list (v : pyval) : bool :=
  match v with PList _ => true | _ => false end.

Definition isinstance_Session (v : pyval) : bool :=
  match v with PSession _ => true | _ => false end.

(** [str(type(v))]. *)
Definition type_repr (v : pyval) : string :=
  match v with
  | PNone => "<class 'NoneType'>"
  | PBool _ => "<class 'bool'>"
  | PInt _ => "<class 'int'>"
  | PStr _ => "<class 'str'>"
  | PList _ => "<class 'list'>"
  | PSession _ => "<class 'proton.api.Session'>"
  end.

(** [len(v)]; only sized values reach it in this module. *)
Definition len (v : pyval) : nat :=
  match v with
  | PList l => length l
  | PStr s => String.length s
  | _ => 0
  end.

(** ** The world *)

Inductive node :=
| File (content : string)
| Dir.

(** *** The file system

    Entries are keyed by their names from the root; the root itself is a
    directory and has no entry.  [cwd] is where relative paths start. *)
Record filesystem := {
  entries : gmap (list string) node;
  cwd : list string
}.

Definition entry (f : filesystem) (k : list string) : option node :=
  match k with
  | [] => Some Dir
  | _ => entries f !! k
  end.

Definition set_entry (f : filesystem) (k : list string) (n : node)
  : filesystem :=
  {| entries := <[k := n]> (entries f); cwd := cwd f |}.

Definition del_entry (f : filesystem) (k : list string) : filesystem :=
  {| entries := delete k (entries f); cwd := cwd f |}.

Definition slash : ascii := "/"%char.

(** [p.split('/')] *)
Fixpoint split_slash (s : string) : list string :=
  match s with
  | EmptyString => [EmptyString]
  | String c r =>
      if Ascii.eqb c slash then EmptyString :: split_slash r
      else match split_slash r with
           | x :: xs => String c x :: xs
           | [] => [String c EmptyString]
           end
  end.

Fixpoint has_nul (s : string) : bool :=
  match s with
  | EmptyString => false
  | String c r => Ascii.eqb c Ascii.zero || has_nul r
  end.

Definition absolute (p : string) : bool :=
  match p with
  | String c _ => Ascii.eqb c slash
  | EmptyString => false
  end.

(** An empty component (a doubled or trailing slash) and [.] stay where
    they are, [..] goes to the parent. *)
Definition skips (c : string) : bool :=
  String.eqb c EmptyString || String.eqb c ".".

Definition goes_up (c : string) : bool := String.eqb c "..".

(** The walk along the components: through directories as long as there
    are components; it ends in a directory, or stops at the first name
    that is a file or is not there, with the components still to come. *)
Inductive lead_result :=
| End (cur : list string)
| AtFile (k : list string) (content : string) (rest : list string)
| AtNone (k : list string) (rest : list string).

Fixpoint lead (e : list string → option node) (cur : list string)
    (cs : list string) : lead_result :=
  match cs with
  | [] => End cur
  | c :: rest =>
      if skips c then lead e cur rest
      else if goes_up c then lead e (removelast cur) rest
      else match e (cur ++ [c]) with
           | Some Dir => lead e (cur ++ [c]) rest
           | Some (File x) => AtFile (cur ++ [c]) x rest
           | None => AtNone (cur ++ [c]) rest
           end
  end.

(** What a path string comes to:
    - [Found k n]: it names the entry [n] at [k];
    - [FileSlash k]: a file at [k] followed by slashes only;
    - [Creatable k slash]: the name at [k] is free in a directory that is
      there, [slash] telling whether slashes follow it;
    - [NoEntry] (ENOENT), [NotDir] (ENOTDIR);
    - [BadPath]: the string holds a NUL character. *)
Inductive resolved :=
| Found (k : list string) (n : node)
| FileSlash (k : list string)
| Creatable (k : list string) (slash : bool)
| NoEntry
| NotDir
| BadPath.

Definition all_empty (cs : list string) : bool :=
  forallb (String.eqb EmptyString) cs.

Definition is_nil {A} (l : list A) : bool :=
  match l with
  | [] => true
  | _ => false
  end.

Definition finish (r : lead_result) : resolved :=
  match r with
  | End cur => Found cur Dir
  | AtFile k x rest =>
      if is_nil rest then Found k (File x)
      else if all_empty rest then FileSlash k else NotDir
  | AtNone k rest =>
      if all_empty rest then Creatable k (negb (is_nil rest)) else NoEntry
  end.

Definition walk (f : filesystem) (p : string) : lead_result :=
  lead (entry f) (if absolute p then [] else cwd f) (split_slash p).

Definition resolve (f : filesystem) (p : string) : resolved :=
  if has_nul p then BadPath
  else if String.eqb p EmptyString then NoEntry
  else finish (walk f p).

(** [f !! p] is what [stat] sees at the path [p]; [<[p := n]> f] puts [n]
    where [p] leads when [p] names an entry or a free name, and [delete p f]
    takes away the entry [p] names. *)
#[global] Instance fs_lookup : Lookup string node filesystem := λ p f,
  match resolve f p with
  | Found _ n => Some n
  | _ => None
  end.

#[global] Instance fs_insert : Insert string node filesystem := λ p n f,
  match resolve f p with
  | Found k _ | Creatable k _ => set_entry f k n
  | _ => f
  end.

#[global] Instance fs_delete : Delete string filesystem := λ p f,
  match resolve f p with
  | Found k _ => del_entry f k
  | _ => f
  end.

#[global] Instance fs_empty : Empty filesystem :=
  {| entries := ∅; cwd := [] |}.

Record ConnectionState := {
  lastServerName : option pyval;
  lastProtocol : option pyval
}.

Inductive event :=
| EvSaveServername (v : pyval)
| EvSaveProtocol (v : pyval)
| EvGetTemplate (dir name : string)
| EvRender (vars : gmap string pyval)
| EvIsdir (p : string)
| EvMkdir (p : string)
| EvOpenW (p : string)
| EvWrite (p text : string)
| EvRemove (p : string)
| EvPrint (s : string)
| EvCapture (e : exn).

Record World := {
  conn : ConnectionState;
  fs : filesystem;
  sink : list exn;
  stdout : list string;
  calls : list event
}.

Definition log_call (ev : event) (w : World) : World :=
  {| conn := conn w; fs := fs w; sink := sink w; stdout := stdout w;
     calls := calls w ++ [ev] |}.

Definition set_conn (c : ConnectionState) (w : World) : World :=
  {| conn := c; fs := fs w; sink := sink w; stdout := stdout w;
     calls := calls w |}.

Definition set_fs (f : filesystem) (w : World) : World :=
  {| conn := conn w; fs := f; sink := sink w; stdout := stdout w;
     calls := calls w |}.

Definition set_sink (s : list exn) (w : World) : World :=
  {| conn := conn w; fs := fs w; sink := s; stdout := stdout w;
     calls := calls w |}.

Definition set_stdout (s : list string) (w : World) : World :=
  {| conn := conn w; fs := fs w; sink := sink w; stdout := s;
     calls := calls w |}.

(** ** State and exception monad *)

Inductive result (A : Type) :=
| Ret (a : A)
| Raise (e : exn).
Arguments Ret {A} a.
Arguments Raise {A} e.

Definition M (A : Type) : Type := World → result A * World.

#[global] Instance M_ret : MRet M := λ A a w, (Ret a, w).

#[global] Instance M_bind : MBind M := λ A B k m w,
  match m w with
  | (Ret a, w') => k a w'
  | (Raise e, w') => (Raise e, w')
  end.

Definition raise {A} (e : exn) : M A := λ w, (Raise e, w).

(** [try: body except ...: handler] with one handler function that
    receives the exception; a handler that does not match re-raises. *)
Definition try_except {A} (body : M A) (handler : exn → M A) : M A := λ w,
  match body w with
  | (Ret a, w') => (Ret a, w')
  | (Raise e, w') => handler e w'
  end.

Definition effect (ev : event) (f : World → World) : M () :=
  λ w, (Ret (), f (log_call ev w)).

Definition lift_result {A} (ev : event) (r : exn + A) : M A := λ w,
  match r with
  | inl e => (Raise e, log_call ev w)
  | inr a => (Ret a, log_call ev w)
  end.

(** ** [os] and [open] *)

Definition is_dir (f : filesystem) (p : string) : bool :=
  match f !! p with
  | Some Dir => true
  | _ => false
  end.

(** The path names an entry, or a free name in a directory that is
    there. *)
Definition parent_is_dir (f : filesystem) (p : string) : bool :=
  match resolve f p with
  | Found _ _ | Creatable _ _ => true
  | _ => false
  end.

Definition os_error (c : exn_class) (p : string) : exn := Raised c (PStr p).

(** The error for a path that does not lead anywhere. *)
Definition path_error (r : resolved) (p : string) : exn :=
  match r with
  | NotDir | FileSlash _ => os_error NotADirectoryError p
  | BadPath => Raised ValueError (PStr "embedded null byte")
  | _ => os_error FileNotFoundError p
  end.

Definition os_path_isdir (p : string) : M bool := λ w,
  (Ret (is_dir (fs w) p), log_call (EvIsdir p) w).

(** The error of [os.mkdir] on a path that cannot be made: the name is
    taken, or the path does not lead to a free name. *)
Definition mkdir_error (r : resolved) (p : string) : exn :=
  match r with
  | Found _ _ | FileSlash _ => os_error FileExistsError p
  | _ => path_error r p
  end.

(** [os.mkdir(p)]: one level; slashes after the new name are allowed. *)
Definition os_mkdir (p : string) : M () := λ w,
  let w1 := log_call (EvMkdir p) w in
  match resolve (fs w) p with
  | Creatable _ _ => (Ret (), set_fs (<[p := Dir]> (fs w)) w1)
  | r => (Raise (mkdir_error r p), w1)
  end.

(** [open(p, "w")]: creates or truncates; with a slash after the last
    name the error is [IsADirectoryError] whatever the name holds. *)
Definition open_w (p : string) : M () := λ w,
  let w1 := log_call (EvOpenW p) w in
  match resolve (fs w) p with
  | Found _ Dir | FileSlash _ | Creatable _ true =>
      (Raise (os_error IsADirectoryError p), w1)
  | Found _ (File _) | Creatable _ false =>
      (Ret (), set_fs (<[p := File EmptyString]> (fs w)) w1)
  | r => (Raise (path_error r p), w1)
  end.

(** [f.write(text)] on the handle [open_w p] gave, then the close at the
    end of the [with] block.  The handle is named by its path; after
    [open_w p] succeeded the path holds a file, so the last branch is not
    taken there. *)
Definition f_write (p text : string) : M () := λ w,
  let w1 := log_call (EvWrite p text) w in
  match fs w !! p with
  | Some (File old) => (Ret (), set_fs (<[p := File (old +:+ text)]> (fs w)) w1)
  | _ => (Ret (), w1)
  end.

(** [os.remove(p)] *)
Definition os_remove (p : string) : M () := λ w,
  let w1 := log_call (EvRemove p) w in
  match resolve (fs w) p with
  | Found _ Dir => (Raise (os_error IsADirectoryError p), w1)
  | Found _ (File _) => (Ret (), set_fs (delete p (fs w)) w1)
  | r => (Raise (path_error r p), w1)
  end.

Definition print (s : string) : M () :=
  effect (EvPrint s) (λ w, set_stdout (stdout w ++ [s]) w).

(** [capture_exception(e)]: the crash-report sink keeps the exception. *)
Definition capture_exception (e : exn) : M () :=
  effect (EvCapture e) (λ w, set_sink (sink w ++ [e]) w).

(** [d[k]] on a dict with [str] keys: a list is unhashable, any other key
    that is not in the dict is a [KeyError(k)]. *)
Definition getitem {A} (d : gmap string A) (k : pyval) : M A :=
  match k with
  | PStr s =>
      match d !! s with
      | Some a => mret a
      | None => raise (Raised KeyError k)
      end
  | PList _ => raise (Raised TypeError (PStr "unhashable type: 'list'"))
  | _ => raise (Raised KeyError k)
  end.

(** ** Configuration and collaborators *)

(** [protonvpn.enums.ProtocolEnum]: its members are [str] values. *)
Module ProtocolEnum.
Record t := {
  TCP : string;
  UDP : string;
  IKEV2 : string;
  WIREGUARD : string
}.
Definition members (e : t) : list string := [TCP e; UDP e; IKEV2 e; WIREGUARD e].
End ProtocolEnum.

(** [protonvpn.enums.ProtocolPortEnum] *)
Module ProtocolPortEnum.
Record t := {
  TCP : pyval;
  UDP : pyval
}.
End ProtocolPortEnum.

(** [protonvpn.constants] *)
Record Constants := {
  CACHED_OPENVPN_CERTIFICATE : string;
  OPENVPN_TEMPLATE : string;
  PROTON_XDG_CACHE_HOME : string;
  TEMPLATES : string
}.

(** [jinja2]: [Environment(loader=FileSystemLoader(dir)).get_template(name)]
    and [template.render(values)].  The template directory belongs to the
    installation and is not part of the modelled file system. *)
Record Engine := {
  Template : Type;
  get_template : string → string → exn + Template;
  render : Template → gmap string pyval → exn + string
}.

(** Modelled from the spec: [ConnectionStateManager.save_servername] is in
    [connection_state_manager.py], which is not among the sources; it is an
    unconditional write of the last server name into the connection state. *)
Definition save_servername (servername : pyval) : M () :=
  effect (EvSaveServername servername)
    (λ w, set_conn {| lastServerName := Some servername;
                      lastProtocol := lastProtocol (conn w) |} w).

(** Modelled from the spec: [ConnectionStateManager.save_protocol], as
    above, an unconditional write of the last protocol. *)
Definition save_protocol (protocol : pyval) : M () :=
  effect (EvSaveProtocol protocol)
    (λ w, set_conn {| lastServerName := lastServerName (conn w);
                      lastProtocol := Some protocol |} w).

(** ** class CertificateManager *)

Section CertificateManager.
Context (PE : ProtocolEnum.t) (PP : ProtocolPortEnum.t) (K : Constants).
Context (j2 : Engine).

Definition j2_get_template (name : string) : M (Template j2) :=
  lift_result (EvGetTemplate (TEMPLATES K) name)
    (get_template j2 (TEMPLATES K) name).

Definition template_render (t : Template j2) (vars : gmap string pyval)
  : M string :=
  lift_result (EvRender vars) (render j2 t vars).

(** Lines 136-137: create the cache directory unless it is there. *)
Definition ensure_cache_dir : M () :=
  d ← os_path_isdir (PROTON_XDG_CACHE_HOME K);
  if negb d then os_mkdir (PROTON_XDG_CACHE_HOME K) else mret ().

(** Lines 139-140: the [with] block; the file is opened, and so created
    or truncated, before the template is rendered. *)
Definition write_cert (cached_cert : string) (template : Template j2)
  (j2_values : gmap string pyval) : M () :=
  open_w cached_cert;;
  text ← template_render template j2_values;
  f_write cached_cert text.

Definition generate_openvpn_cert
  (servername ip_list : pyval) (cached_cert : string) (protocol : pyval)
  : M pyval :=
  let ports : gmap string pyval :=
    <[ProtocolEnum.UDP PE := ProtocolPortEnum.UDP PP]>
      (<[ProtocolEnum.TCP PE := ProtocolPortEnum.TCP PP]> ∅) in
  port ← getitem ports protocol;
  let j2_values : gmap string pyval :=
    <["openvpn_ports" := PList [port]]>
      (<["serverlist" := ip_list]>
         (<["openvpn_protocol" := protocol]> ∅)) in
  template ← j2_get_template (OPENVPN_TEMPLATE K);
  ensure_cache_dir;;
  write_cert cached_cert template j2_values;;
  mret (PStr cached_cert).

Definition generate_strongswan_cert
  (servername ip_list : pyval) (cached_cert : string) (_ : pyval)
  : M pyval :=
  print "Generate Strongswan";;
  mret (PBool true).

Definition generate_wireguard_cert
  (servername ip_list : pyval) (cached_cert : string) (_ : pyval)
  : M pyval :=
  print "Generate wireguard";;
  mret (PBool true).

Definition type_error (expected : string) (got : pyval) : exn :=
  Raised TypeError
    (PStr ("Incorrect object type, " +:+ expected +:+ " is expected but got "
           +:+ type_repr got +:+ " instead")).

Definition generate_vpn_cert
  (protocol session servername ip_list : pyval) (cached_cert : option string)
  : M pyval :=
  let cached_cert := default (CACHED_OPENVPN_CERTIFICATE K) cached_cert in
  let protocol_dict
    : gmap string (pyval → pyval → string → pyval → M pyval) :=
    <[ProtocolEnum.WIREGUARD PE := generate_wireguard_cert]>
      (<[ProtocolEnum.IKEV2 PE := generate_strongswan_cert]>
         (<[ProtocolEnum.UDP PE := generate_openvpn_cert]>
            (<[ProtocolEnum.TCP PE := generate_openvpn_cert]> ∅))) in
  if negb (isinstance_str protocol) then
    raise (type_error "str" protocol)
  else if negb (isinstance_Session session) then
    raise (type_error "<class 'type'>" protocol)
  else if negb (isinstance_str servername) then
    raise (type_error "str" servername)
  else if negb (isinstance_list ip_list) then
    raise (type_error "list" ip_list)
  else if Nat.eqb (len ip_list) 0 then
    raise (Raised ValueError (PStr "No servers were provided"))
  else
    save_servername servername;;
    save_protocol protocol;;
    try_except
      (generator ← getitem protocol_dict protocol;
       generator servername ip_list cached_cert protocol)
      (λ e,
        if decide (class_of e = KeyError) then
          raise (Wrapping IllegalVPNProtocol e)
        else if decide (class_of e = TemplateNotFound) then
          raise (Wrapping TemplateNotFound e)
        else
          capture_exception e;;
          mret PNone).

Definition delete_cached_certificate (filename : string) : M () :=
  os_remove filename.

End CertificateManager.

(** ** Vocabulary of the statements *)

(** The world once [save_servername] and [save_protocol] have run. *)
Definition after_recording (servername protocol : pyval) (w : World) : World :=
  set_conn {| lastServerName := Some servername;
              lastProtocol := Some protocol |}
    (log_call (EvSaveProtocol protocol)
       (set_conn {| lastServerName := Some servername;
                    lastProtocol := lastProtocol (conn w) |}
          (log_call (EvSaveServername servername) w))).

(** The world once [capture_exception e] has run. *)
Definition after_capture (e : exn) (w : World) : World :=
  set_sink (sink w ++ [e]) (log_call (EvCapture e) w).

(** The five checks of [generate_vpn_cert] pass. *)
Definition checks_pass (protocol session servername ip_list : pyval) : Prop :=
  isinstance_str protocol = true ∧
  isinstance_Session session = true ∧
  isinstance_str servername = true ∧
  isinstance_list ip_list = true ∧
  len ip_list ≠ 0.

(** Lines 91-104 of [generate_vpn_cert] on their own: the [try] statement
    that looks the generator up, calls it and handles what it raises. *)
Definition try_dispatch (PE : ProtocolEnum.t) (PP : ProtocolPortEnum.t)
  (K : Constants) (j2 : Engine)
  (protocol servername ip_list : pyval) (cached_cert : string) : M pyval :=
  let protocol_dict
    : gmap string (pyval → pyval → string → pyval → M pyval) :=
    <[ProtocolEnum.WIREGUARD PE := generate_wireguard_cert]>
      (<[ProtocolEnum.IKEV2 PE := generate_strongswan_cert]>
         (<[ProtocolEnum.UDP PE := generate_openvpn_cert PE PP K j2]>
            (<[ProtocolEnum.TCP PE := generate_openvpn_cert PE PP K j2]> ∅))) in
  try_except
    (generator ← getitem protocol_dict protocol;
     generator servername ip_list cached_cert protocol)
    (λ e,
      if decide (class_of e = KeyError) then
        raise (Wrapping IllegalVPNProtocol e)
      else if decide (class_of e = TemplateNotFound) then
        raise (Wrapping TemplateNotFound e)
      else
        capture_exception e;;
        mret PNone).

(** A computation leaves a component of the world alone. *)
Definition keeps {B A} (proj : World → B) (m : M A) : Prop :=
  ∀ w, proj (m w).2 = proj w.

(** A computation maintains an invariant of the world. *)
Definition maintains {A} (I : World → Prop) (m : M A) : Prop :=
  ∀ w, I w → I (m w).2.

(** A computation only appends to the trace, and only events in [P]. *)
Definition only_calls {A} (P : event → Prop) (m : M A) : Prop :=
  ∀ w, ∃ new, calls (m w).2 = calls w ++ new ∧ Forall P new.

(** Events that record into the connection state. *)
Definition is_recording (ev : event) : bool :=
  match ev with
  | EvSaveServername _ | EvSaveProtocol _ => true
  | _ => false
  end.

(** Events of the template engine and of file output. *)
Definition is_render_or_write (ev : event) : bool :=
  match ev with
  | EvGetTemplate _ _ | EvRender _ | EvMkdir _ | EvOpenW _ | EvWrite _ _ => true
  | _ => false
  end.

(** What a generator may call, what the [try] statement may call, and
    what a stub may call. *)
Definition generator_event (ev : event) : Prop :=
  match ev with
  | EvSaveServername _ | EvSaveProtocol _ | EvCapture _ | EvRemove _ => False
  | _ => True
  end.

Definition dispatch_event (ev : event) : Prop :=
  is_recording ev = false.

Definition stub_event (ev : event) : Prop :=
  match ev with
  | EvPrint _ => True
  | _ => False
  end.

(** The variables handed to the template. *)
Definition j2_values_of (protocol ip_list port : pyval) : gmap string pyval :=
  <["openvpn_ports" := PList [port]]>
    (<["serverlist" := ip_list]>
       (<["openvpn_protocol" := protocol]> ∅)).

(** The file system once the cache directory has been seen to: as it
    was when the directory is there, with the directory made otherwise. *)
Definition with_cache_dir (K : Constants) (f : filesystem) : filesystem :=
  if is_dir f (PROTON_XDG_CACHE_HOME K) then f
  else <[PROTON_XDG_CACHE_HOME K := Dir]> f.

(** [open(p, "w")] can succeed on this file system: the path names a
    file, or a free name, with no slash after it, in a directory that is
    there. *)
Definition writable (f : filesystem) (p : string) : Prop :=
  match resolve f p with
  | Found _ (File _) | Creatable _ false => True
  | _ => False
  end.

(** [open(p, "w")] succeeds and the file is the entry [k]. *)
Definition opens_at (f : filesystem) (p : string) (k : list string) : Prop :=
  (∃ x, resolve f p = Found k (File x)) ∨ resolve f p = Creatable k false.

(** Where a walk stopped, and what was still to come. *)
Definition stop_key (r : lead_result) : option (list string) :=
  match r with
  | End _ => None
  | AtFile k _ _ | AtNone k _ => Some k
  end.

Definition stop_rest (r : lead_result) : list string :=
  match r with
  | End _ => []
  | AtFile _ _ rest | AtNone _ rest => rest
  end.

(** What the walk does at the name [k]. *)
Definition visit (e : list string → option node) (k rest : list string)
  : lead_result :=
  match e k with
  | Some Dir => lead e k rest
  | Some (File x) => AtFile k x rest
  | None => AtNone k rest
  end.

(** The entry a path leads to. *)
Definition res_key (r : resolved) : option (list string) :=
  match r with
  | Found k _ | FileSlash k | Creatable k _ => Some k
  | _ => None
  end.

(** [f'] is [f] but for the entry [k], where [f] has no directory. *)
Definition differs_at (f f' : filesystem) (k : list string) : Prop :=
  cwd f' = cwd f ∧ (∀ j, j ≠ k → entry f' j = entry f j) ∧
  entry f k ≠ Some Dir.

(** Two worlds agree on everything but the connection state and the
    trace. *)
Definition same_effects (w1 w2 : World) : Prop :=
  fs w1 = fs w2 ∧ sink w1 = sink w2 ∧ stdout w1 = stdout w2.

(** Two computations give the same result and the same effects whenever
    they start from worlds that agree in this way. *)
Definition alike {A} (m1 m2 : M A) : Prop :=
  ∀ w1 w2, same_effects w1 w2 →
    (m1 w1).1 = (m2 w2).1 ∧ same_effects (m1 w1).2 (m2 w2).2.

(** ** A concrete installation, for examples *)

Definition example_enum : ProtocolEnum.t :=
  {| ProtocolEnum.TCP := "tcp"; ProtocolEnum.UDP := "udp";
     ProtocolEnum.IKEV2 := "ikev2"; ProtocolEnum.WIREGUARD := "wireguard" |}.

Definition example_ports : ProtocolPortEnum.t :=
  {| ProtocolPortEnum.TCP := PInt 443; ProtocolPortEnum.UDP := PInt 1194 |}.

Definition example_constants : Constants :=
  {| CACHED_OPENVPN_CERTIFICATE := "/home/user/.cache/protonvpn/ProtonVPN.ovpn";
     OPENVPN_TEMPLATE := "openvpn_template.j2";
     PROTON_XDG_CACHE_HOME := "/home/user/.cache/protonvpn";
     TEMPLATES := "/usr/lib/protonvpn/templates" |}.

Definition show (v : pyval) : string :=
  match v with
  | PStr s => s
  | PInt z => pretty z
  | _ => "?"
  end.

(** A toy template: the protocol line, then one [remote] line per server
    and port. *)
Definition example_render (vars : gmap string pyval) : exn + string :=
  match vars !! "openvpn_protocol", vars !! "serverlist",
        vars !! "openvpn_ports" with
  | Some p, Some (PList ips), Some (PList ports) =>
      inr ("proto " +:+ show p +:+ ";" +:+
           String.concat EmptyString
             (map (λ ip,
                String.concat EmptyString
                  (map (λ port,
                     "remote " +:+ show ip +:+ " " +:+ show port +:+ ";")
                     ports))
                ips))
  | _, _, _ => inl (Raised (OtherException "UndefinedError") PNone)
  end.

Definition example_engine : Engine :=
  {| Template := string;
     get_template := λ dir name,
       if decide (name = "openvpn_template.j2") then inr name
       else inl (Raised TemplateNotFound (PStr name));
     render := λ _ vars, example_render vars |}.

(** An installation whose template directory is empty. *)
Definition no_template_engine : Engine :=
  {| Template := string;
     get_template := λ dir name, inl (Raised TemplateNotFound (PStr name));
     render := λ _ vars, example_render vars |}.

(** A template whose rendering looks a missing key up. *)
Definition keyerror_engine : Engine :=
  {| Template := string;
     get_template := λ dir name, inr name;
     render := λ _ vars, inl (Raised KeyError (PStr "remote_port")) |}.

Definition example_ips : pyval := PList [PStr "1.2.3.4"].

(** A machine with [/home/user/.cache] and nothing in it. *)
Definition example_home : filesystem :=
  <["/home/user/.cache" := Dir]>
    (<["/home/user" := Dir]> (<["/home" := Dir]> ∅)).

Definition example_world : World :=
  {| conn := {| lastServerName := None; lastProtocol := None |};
     fs := <["/tmp" := Dir]> example_home;
     sink := []; stdout := []; calls := [] |}.

(** A machine on which the parent of the cache directory is missing. *)
Definition bare_world : World :=
  {| conn := {| lastServerName := None; lastProtocol := None |};
     fs := ∅; sink := []; stdout := []; calls := [] |}.

(** A template that fails while it is rendered. *)
Definition failing_render_engine : Engine :=
  {| Template := string;
     get_template := λ dir name, inr name;
     render := λ _ vars,
       inl (Raised (OtherException "UndefinedError") (PStr "servers")) |}.

(** A machine that holds a certificate from an earlier run. *)
Definition cached_world : World :=
  {| conn := {| lastServerName := Some (PStr "NL#7");
                lastProtocol := Some (PStr "udp") |};
     fs := <["/home/user/.cache/protonvpn/ProtonVPN.ovpn" :=
               File "proto udp;remote 9.9.9.9 1194;"]>
             (<["/home/user/.cache/protonvpn" := Dir]> example_home);
     sink := []; stdout := []; calls := [] |}.

(** The first machine with a certificate at [/tmp/cert.ovpn]. *)
Definition cached_tmp_world : World :=
  set_fs (<["/tmp/cert.ovpn" := File "remote 1.2.3.4"]> (fs example_world))
    example_world.

(** A machine on which a regular file sits where the cache directory
    should be. *)
Definition blocked_world : World :=
  {| conn := {| lastServerName := None; lastProtocol := None |};
     fs := <["/home/user/.cache/protonvpn" := File "stray"]> example_home;
     sink := []; stdout := []; calls := [] |}.

(** A machine on which a regular file sits on the way to the cache
    directory. *)
Definition under_file_world : World :=
  {| conn := {| lastServerName := None; lastProtocol := None |};
     fs := <["/home/user/.cache" := File "stray"]>
             (<["/home/user" := Dir]> (<["/home" := Dir]> ∅));
     sink := []; stdout := []; calls := [] |}.

(** ** Properties *)

(** *** Walks under a change of one entry *)

Section Lead.
Context (e e' : list string → option node) (k : list string).
Hypothesis agree : ∀ j, j ≠ k → e' j = e j.
Hypothesis not_dir : e k ≠ Some Dir.

Lemma lead_stop_entry cs cur :
  match lead e cur cs with
  | End _ => True
  | AtFile j x _ => e j = Some (File x)
  | AtNone j _ => e j = None
  end.
Proof.
  revert cur. induction cs as [|c rest IH]; intros cur; cbn; [done|].
  destruct (skips c); [apply IH|]. destruct (goes_up c); [apply IH|].
  destruct (e (cur ++ [c])) as [[x|]|] eqn:E; [done | apply IH | done].
Qed.

Lemma lead_stop_nonnil cs cur j : stop_key (lead e cur cs) = Some j → j ≠ [].
Proof.
  revert cur. induction cs as [|c rest IH]; intros cur; cbn; [done|].
  destruct (skips c); [apply IH|]. destruct (goes_up c); [apply IH|].
  destruct (e (cur ++ [c])) as [[x|]|]; [| apply IH |];
    cbn; intros [= <-]; by destruct cur.
Qed.

Lemma lead_other cs cur :
  stop_key (lead e cur cs) ≠ Some k → lead e' cur cs = lead e cur cs.
Proof.
  revert cur. induction cs as [|c rest IH]; intros cur; cbn; [done|].
  destruct (skips c); [apply IH|]. destruct (goes_up c); [apply IH|].
  destruct (decide (cur ++ [c] = k)) as [Hk|Hk].
  - rewrite Hk. destruct (e k) as [[x|]|] eqn:E; cbn; congruence.
  - rewrite (agree _ Hk).
    destruct (e (cur ++ [c])) as [[x|]|]; [done | apply IH | done].
Qed.

Lemma lead_at cs cur :
  stop_key (lead e cur cs) = Some k →
  lead e' cur cs = visit e' k (stop_rest (lead e cur cs)).
Proof.
  revert cur. induction cs as [|c rest IH]; intros cur; cbn; [done|].
  destruct (skips c); [apply IH|]. destruct (goes_up c); [apply IH|].
  destruct (e (cur ++ [c])) as [[x|]|] eqn:E; cbn.
  - by intros [= ->].
  - intros Hs. rewrite agree by congruence. rewrite E. by apply IH.
  - by intros [= ->].
Qed.

End Lead.

Lemma lead_all_empty e cur rest :
  all_empty rest = true → lead e cur rest = End cur.
Proof.
  induction rest as [|c rest IH]; cbn; [done|].
  destruct c; [|done]. cbn. auto.
Qed.

Lemma entry_set_ne f k n j : j ≠ k → entry (set_entry f k n) j = entry f j.
Proof. intros H. destruct j; [done|]. cbn. by rewrite lookup_insert_ne. Qed.

Lemma entry_set_eq f k n : k ≠ [] → entry (set_entry f k n) k = Some n.
Proof. intros H. destruct k; [done|]. cbn. by rewrite lookup_insert_eq. Qed.

Lemma entry_del_ne f k j : j ≠ k → entry (del_entry f k) j = entry f j.
Proof. intros H. destruct j; [done|]. cbn. by rewrite lookup_delete_ne. Qed.

Lemma entry_del_eq f k : k ≠ [] → entry (del_entry f k) k = None.
Proof. intros H. destruct k; [done|]. cbn. by rewrite lookup_delete_eq. Qed.

Lemma resolve_finish f p :
  has_nul p = false → String.eqb p EmptyString = false →
  resolve f p = finish (walk f p).
Proof. intros H1 H2. unfold resolve. by rewrite H1, H2. Qed.

Lemma resolve_key_inv f p k :
  res_key (resolve f p) = Some k →
  has_nul p = false ∧ String.eqb p EmptyString = false ∧
  resolve f p = finish (walk f p).
Proof.
  unfold resolve. destruct (has_nul p); [done|].
  by destruct (String.eqb p EmptyString).
Qed.

Lemma finish_found_file r k x :
  finish r = Found k (File x) → r = AtFile k x [].
Proof.
  destruct r as [c|j y rest|j rest]; unfold finish; [done | |].
  - destruct rest; cbn [is_nil]; [congruence|]. by case_match.
  - by case_match.
Qed.

Lemma finish_found_dir r k : finish r = Found k Dir → r = End k.
Proof.
  destruct r as [c|j y rest|j rest]; unfold finish; [congruence | |].
  - destruct rest; cbn [is_nil]; [done|]. by case_match.
  - by case_match.
Qed.

Lemma finish_creatable r k sl :
  finish r = Creatable k sl →
  ∃ rest, r = AtNone k rest ∧ all_empty rest = true ∧ sl = negb (is_nil rest).
Proof.
  destruct r as [c|j y rest|j rest]; unfold finish; [done | |].
  - destruct rest; cbn [is_nil]; [done|]. by case_match.
  - destruct (all_empty rest) eqn:E; [|done]. intros [= -> <-]. by exists rest.
Qed.

Lemma walk_other f f' k p :
  differs_at f f' k → stop_key (walk f p) ≠ Some k → walk f' p = walk f p.
Proof.
  intros (Hc & Ha & Hn) Hs. unfold walk in *. rewrite Hc.
  by apply (lead_other (entry f) (entry f') k).
Qed.

Lemma walk_at f f' k p :
  differs_at f f' k → stop_key (walk f p) = Some k →
  walk f' p = visit (entry f') k (stop_rest (walk f p)).
Proof.
  intros (Hc & Ha & Hn) Hs. unfold walk in *. rewrite Hc.
  by apply (lead_at (entry f) (entry f') k).
Qed.

Lemma finish_key r j :
  res_key (finish r) = Some j → stop_key r = Some j ∨ r = End j.
Proof.
  destruct r as [c|j' y rest|j' rest]; unfold finish.
  - intros [= ->]. by right.
  - destruct rest; cbn [is_nil]; [by left|]. case_match; cbn; [by left | done].
  - case_match; cbn; [by left | done].
Qed.

(** Paths that lead to another key, or to a directory, resolve as before. *)
Lemma resolve_other f f' k p j :
  differs_at f f' k →
  res_key (resolve f p) = Some j →
  j ≠ k ∨ resolve f p = Found j Dir →
  resolve f' p = resolve f p.
Proof.
  intros Hd Hj Hk.
  destruct (resolve_key_inv f p j Hj) as (H1 & H2 & Hf).
  rewrite (resolve_finish f' p H1 H2), Hf. rewrite Hf in Hj, Hk.
  rewrite (walk_other f f' k p Hd); [done|].
  destruct Hk as [Hk | Hk].
  - apply finish_key in Hj as [Hj | Hj]; rewrite Hj; cbn; congruence.
  - apply finish_found_dir in Hk. by rewrite Hk.
Qed.

Lemma differs_set f k n : entry f k ≠ Some Dir → differs_at f (set_entry f k n) k.
Proof. intros H. split; [done|]. split; [|done]. intros j. apply entry_set_ne. Qed.

Lemma differs_del f k : entry f k ≠ Some Dir → differs_at f (del_entry f k) k.
Proof. intros H. split; [done|]. split; [|done]. intros j. apply entry_del_ne. Qed.

(** Where a path that names a file, or a free name, ends. *)
Lemma resolve_stop f p k :
  (∃ x, resolve f p = Found k (File x)) ∨ (∃ sl, resolve f p = Creatable k sl) →
  has_nul p = false ∧ String.eqb p EmptyString = false ∧
  stop_key (walk f p) = Some k ∧ k ≠ [] ∧ entry f k ≠ Some Dir ∧
  all_empty (stop_rest (walk f p)) = true.
Proof.
  intros H.
  assert (res_key (resolve f p) = Some k) as Hk
    by (destruct H as [[x ->] | [sl ->]]; done).
  destruct (resolve_key_inv f p k Hk) as (H1 & H2 & Hf).
  split; [done|]. split; [done|].
  pose proof (lead_stop_entry (entry f) (split_slash p)
                (if absolute p then [] else cwd f)) as He.
  pose proof (lead_stop_nonnil (entry f) (split_slash p)
                (if absolute p then [] else cwd f) k) as Hn.
  fold (walk f p) in He, Hn. rewrite Hf in H.
  destruct H as [[x H] | [sl H]].
  - apply finish_found_file in H. rewrite H in *. cbn.
    repeat split; [by apply Hn | congruence].
  - apply finish_creatable in H as (rest & H & Ha & _). rewrite H in *. cbn.
    repeat split; [by apply Hn | congruence | done].
Qed.

Lemma resolve_set_file f p k y :
  (∃ x, resolve f p = Found k (File x)) ∨ resolve f p = Creatable k false →
  resolve (set_entry f k (File y)) p = Found k (File y).
Proof.
  intros H.
  assert (stop_rest (walk f p) = []) as Hrest.
  { destruct H as [[x H] | H];
      (destruct (resolve_key_inv f p k) as (_ & _ & Hf); [by rewrite H|]);
      rewrite Hf in H.
    - apply finish_found_file in H. by rewrite H.
    - apply finish_creatable in H as (rest & H & _ & Hsl). rewrite H. cbn.
      by destruct rest. }
  destruct (resolve_stop f p k) as (H1 & H2 & Hs & Hn & He & _).
  { destruct H as [? | ?]; [by left | right; by eexists]. }
  rewrite (resolve_finish _ p H1 H2).
  rewrite (walk_at f _ k p (differs_set f k (File y) He) Hs).
  unfold visit. rewrite entry_set_eq by done. by rewrite Hrest.
Qed.

Lemma resolve_set_dir f p k sl :
  resolve f p = Creatable k sl →
  resolve (set_entry f k Dir) p = Found k Dir.
Proof.
  intros H.
  destruct (resolve_stop f p k) as (H1 & H2 & Hs & Hn & He & Ha);
    [right; by eexists|].
  rewrite (resolve_finish _ p H1 H2).
  rewrite (walk_at f _ k p (differs_set f k Dir He) Hs).
  unfold visit. rewrite entry_set_eq by done. by rewrite lead_all_empty.
Qed.

Lemma resolve_del_file f p k x :
  resolve f p = Found k (File x) →
  resolve (del_entry f k) p = Creatable k false.
Proof.
  intros H.
  destruct (resolve_stop f p k) as (H1 & H2 & Hs & Hn & He & _);
    [left; by eexists|].
  destruct (resolve_key_inv f p k) as (_ & _ & Hf); [by rewrite H|].
  rewrite Hf in H. apply finish_found_file in H.
  rewrite (resolve_finish _ p H1 H2).
  rewrite (walk_at f _ k p (differs_del f k He) Hs).
  unfold visit. rewrite entry_del_eq by done. by rewrite H.
Qed.

Lemma resolve_entry f p k n :
  resolve f p = Found k n → n = Dir ∨ entry f k = Some n.
Proof.
  intros H. destruct n as [x|]; [right | by left].
  destruct (resolve_key_inv f p k) as (_ & _ & Hf); [by rewrite H|].
  rewrite Hf in H. apply finish_found_file in H.
  pose proof (lead_stop_entry (entry f) (split_slash p)
                (if absolute p then [] else cwd f)) as He.
  fold (walk f p) in He. by rewrite H in He.
Qed.

(** *** Paths as the statements use them *)

Lemma fs_lookup_found (f : filesystem) p n :
  f !! p = Some n ↔ ∃ k, resolve f p = Found k n.
Proof.
  unfold lookup, fs_lookup. split.
  - destruct (resolve f p); try done. intros [= ->]. by eexists.
  - by intros [k ->].
Qed.

Lemma is_dir_found f p :
  is_dir f p = true ↔ ∃ k, resolve f p = Found k Dir.
Proof.
  unfold is_dir. split.
  - destruct (f !! p) as [[x|]|] eqn:E; try done. intros _.
    by apply fs_lookup_found.
  - intros H. apply fs_lookup_found in H. by rewrite H.
Qed.

Lemma writable_opens f p : writable f p ↔ ∃ k, opens_at f p k.
Proof.
  unfold writable, opens_at. split.
  - destruct (resolve f p) as [k [x|]|k|k [|]| | |] eqn:E;
      try done; intros _; exists k; [left; by exists x | by right].
  - intros [k [[x ->] | ->]]; done.
Qed.

Lemma opens_at_stop f p k :
  opens_at f p k → k ≠ [] ∧ entry f k ≠ Some Dir.
Proof.
  intros H. destruct (resolve_stop f p k) as (_ & _ & _ & Hn & He & _); [|done].
  destruct H as [? | ?]; [by left | right; by eexists].
Qed.

Lemma opens_at_insert f p k n : opens_at f p k → <[p := n]> f = set_entry f k n.
Proof. unfold insert, fs_insert. by intros [[x ->] | ->]. Qed.

Lemma opens_at_differs f p k n :
  opens_at f p k → differs_at f (set_entry f k n) k.
Proof. intros H. apply differs_set. by apply opens_at_stop in H as []. Qed.

Lemma opens_at_set f p k y :
  opens_at f p k → resolve (set_entry f k (File y)) p = Found k (File y).
Proof. apply resolve_set_file. Qed.

Lemma opens_at_again f p k y :
  opens_at f p k → opens_at (set_entry f k (File y)) p k.
Proof. intros H. left. exists y. by apply opens_at_set. Qed.

Lemma set_entry_twice f k a b :
  set_entry (set_entry f k a) k b = set_entry f k b.
Proof. unfold set_entry. cbn. by rewrite insert_insert_eq. Qed.

Lemma set_entry_id f k n : entries f !! k = Some n → set_entry f k n = f.
Proof.
  intros H. destruct f as [m c]. unfold set_entry. cbn in *.
  by rewrite insert_id.
Qed.

Lemma found_file_entries f p k x :
  resolve f p = Found k (File x) → entries f !! k = Some (File x).
Proof.
  intros H. destruct (opens_at_stop f p k) as [Hn _]; [left; by exists x|].
  apply resolve_entry in H as [? | H]; [done|]. by destruct k.
Qed.

(** A directory stays one when a file is written or a directory made
    elsewhere. *)
Lemma is_dir_differs f f' k d :
  differs_at f f' k → is_dir f d = true → is_dir f' d = true.
Proof.
  intros Hd [j Hj]%is_dir_found. apply is_dir_found. exists j.
  rewrite <- Hj. apply (resolve_other f f' k d j Hd); [by rewrite Hj | by right].
Qed.

Lemma creatable_insert f p k sl :
  resolve f p = Creatable k sl →
  <[p := Dir]> f = set_entry f k Dir ∧
  is_dir (set_entry f k Dir) p = true ∧
  differs_at f (set_entry f k Dir) k.
Proof.
  intros H. split; [unfold insert, fs_insert; by rewrite H|].
  split; [apply is_dir_found; exists k; by eapply resolve_set_dir|].
  apply differs_set.
  destruct (resolve_stop f p k) as (_ & _ & _ & _ & He & _); [|done].
  right. by eexists.
Qed.

(** [stat] of a path that is absent and can be made. *)
Lemma absent_creatable (f : filesystem) p :
  f !! p = None → parent_is_dir f p = true →
  ∃ k sl, resolve f p = Creatable k sl.
Proof.
  unfold lookup, fs_lookup, parent_is_dir.
  destruct (resolve f p) as [k n|k|k sl| | |]; try done. by eexists _, _.
Qed.

Lemma delete_file (f : filesystem) p k x :
  resolve f p = Found k (File x) →
  delete p f = del_entry f k ∧ resolve (del_entry f k) p = Creatable k false.
Proof.
  intros H. split; [unfold delete, fs_delete; by rewrite H|].
  by eapply resolve_del_file.
Qed.

(** *** Files and directories by their paths *)

Lemma lookup_file_writable (f : filesystem) p x :
  f !! p = Some (File x) → writable f p.
Proof. intros [k Hk]%fs_lookup_found. unfold writable. by rewrite Hk. Qed.

Lemma insert_file_lookup (f : filesystem) p t :
  writable f p → <[p := File t]> f !! p = Some (File t).
Proof.
  intros [k Hk]%writable_opens. rewrite (opens_at_insert f p k) by done.
  apply fs_lookup_found. exists k. by apply opens_at_set.
Qed.

Lemma insert_file_twice (f : filesystem) p a b :
  writable f p → <[p := File b]> (<[p := File a]> f) = <[p := File b]> f.
Proof.
  intros [k Hk]%writable_opens.
  rewrite (opens_at_insert f p k (File a)) by done.
  rewrite (opens_at_insert _ p k (File b)) by by apply opens_at_again.
  rewrite (opens_at_insert f p k (File b)) by done.
  apply set_entry_twice.
Qed.

Lemma insert_file_id (f : filesystem) p t :
  f !! p = Some (File t) → <[p := File t]> f = f.
Proof.
  intros [k Hk]%fs_lookup_found.
  rewrite (opens_at_insert f p k) by (left; by exists t).
  apply set_entry_id. by eapply found_file_entries.
Qed.

Lemma insert_file_keeps_dir (f : filesystem) p t d :
  writable f p → is_dir f d = true → is_dir (<[p := File t]> f) d = true.
Proof.
  intros [k Hk]%writable_opens. rewrite (opens_at_insert f p k) by done.
  apply is_dir_differs with k. by eapply opens_at_differs.
Qed.

Lemma mkdir_is_dir (f : filesystem) p :
  f !! p = None → parent_is_dir f p = true → is_dir (<[p := Dir]> f) p = true.
Proof.
  intros Hn Hp. destruct (absent_creatable f p Hn Hp) as (k & sl & Hk).
  destruct (creatable_insert f p k sl Hk) as (-> & H & _). exact H.
Qed.

Lemma mkdir_keeps_dir (f : filesystem) p d :
  f !! p = None → parent_is_dir f p = true →
  is_dir f d = true → is_dir (<[p := Dir]> f) d = true.
Proof.
  intros Hn Hp. destruct (absent_creatable f p Hn Hp) as (k & sl & Hk).
  destruct (creatable_insert f p k sl Hk) as (-> & _ & H).
  by apply is_dir_differs with k.
Qed.


(** Putting a node at a path changes the entry the path leads to and no
    other. *)
Lemma insert_entries_other (f : filesystem) p n k :
  res_key (resolve f p) ≠ Some k → entries (<[p := n]> f) !! k = entries f !! k.
Proof.
  unfold insert, fs_insert.
  destruct (resolve f p) as [j m|j|j sl| | |]; cbn [res_key set_entry entries];
    intros Hk; try done; apply lookup_insert_ne; congruence.
Qed.

Lemma with_cache_dir_other K f k :
  res_key (resolve f (PROTON_XDG_CACHE_HOME K)) ≠ Some k →
  entries (with_cache_dir K f) !! k = entries f !! k.
Proof.
  unfold with_cache_dir. destruct (is_dir f (PROTON_XDG_CACHE_HOME K)); [done|].
  apply insert_entries_other.
Qed.

Lemma after_recording_conn servername protocol w :
  conn (after_recording servername protocol w) =
  {| lastServerName := Some servername; lastProtocol := Some protocol |}.
Proof. reflexivity. Qed.

Lemma after_recording_calls servername protocol w :
  calls (after_recording servername protocol w) =
  calls w ++ [EvSaveServername servername; EvSaveProtocol protocol].
Proof. cbn. by rewrite <- app_assoc. Qed.

(** *** Frame rules *)

Section Frame.
Context {B : Type} (proj : World → B) (P : event → Prop).

Lemma keeps_ret {A} (a : A) : keeps proj (mret a).
Proof. by intros w. Qed.

Lemma keeps_raise {A} e : keeps proj (@raise A e).
Proof. by intros w. Qed.

Lemma keeps_bind {A C} (m : M A) (k : A → M C) :
  keeps proj m → (∀ a, keeps proj (k a)) → keeps proj (m ≫= k).
Proof.
  intros Hm Hk w. unfold mbind, M_bind. specialize (Hm w).
  destruct (m w) as [[a|e] w1]; cbn in *; [by rewrite Hk | done].
Qed.

Lemma keeps_try {A} (m : M A) (h : exn → M A) :
  keeps proj m → (∀ e, keeps proj (h e)) → keeps proj (try_except m h).
Proof.
  intros Hm Hh w. unfold try_except. specialize (Hm w).
  destruct (m w) as [[a|e] w1]; cbn in *; [done | by rewrite Hh].
Qed.

Lemma keeps_getitem {A} (d : gmap string A) k : keeps proj (getitem d k).
Proof. intros w. unfold getitem. by repeat case_match. Qed.

Lemma only_calls_ret {A} (a : A) : only_calls P (mret a).
Proof. intros w. exists []. by rewrite app_nil_r. Qed.

Lemma only_calls_raise {A} e : only_calls P (@raise A e).
Proof. intros w. exists []. by rewrite app_nil_r. Qed.

Lemma only_calls_bind {A C} (m : M A) (k : A → M C) :
  only_calls P m → (∀ a, only_calls P (k a)) → only_calls P (m ≫= k).
Proof.
  intros Hm Hk w. unfold mbind, M_bind. destruct (Hm w) as (n1 & E1 & F1).
  destruct (m w) as [[a|e] w1]; cbn in *; [| by exists n1].
  destruct (Hk a w1) as (n2 & E2 & F2). exists (n1 ++ n2).
  rewrite E2, E1, <- app_assoc. split; [done | by apply Forall_app].
Qed.

Lemma only_calls_try {A} (m : M A) (h : exn → M A) :
  only_calls P m → (∀ e, only_calls P (h e)) → only_calls P (try_except m h).
Proof.
  intros Hm Hh w. unfold try_except. destruct (Hm w) as (n1 & E1 & F1).
  destruct (m w) as [[a|e] w1]; cbn in *; [by exists n1 |].
  destruct (Hh e w1) as (n2 & E2 & F2). exists (n1 ++ n2).
  rewrite E2, E1, <- app_assoc. split; [done | by apply Forall_app].
Qed.

Lemma only_calls_getitem {A} (d : gmap string A) k : only_calls P (getitem d k).
Proof.
  intros w. exists []. rewrite app_nil_r. unfold getitem.
  by repeat case_match.
Qed.

Lemma maintains_bind {A C} (I : World → Prop) (m : M A) (k : A → M C) :
  maintains I m → (∀ a, maintains I (k a)) → maintains I (m ≫= k).
Proof.
  intros Hm Hk w Hw. unfold mbind, M_bind. specialize (Hm w Hw).
  destruct (m w) as [[a|e] w1]; cbn [snd] in *; [by apply Hk | done].
Qed.

Lemma only_calls_effect ev f :
  P ev → (∀ w, calls (f w) = calls w) → only_calls P (effect ev f).
Proof. intros HP Hf w. exists [ev]. cbn. rewrite Hf. by split; [|constructor]. Qed.

Lemma only_calls_lift {A} ev (r : exn + A) : P ev → only_calls P (lift_result ev r).
Proof. intros HP w. exists [ev]. destruct r; cbn; by split; [|constructor]. Qed.

End Frame.

(** *** What each primitive touches *)

Lemma generator_dispatch_event ev : generator_event ev → dispatch_event ev.
Proof. by destruct ev. Qed.

Lemma only_calls_weaken {A} (P Q : event → Prop) (m : M A) :
  (∀ ev, P ev → Q ev) → only_calls P m → only_calls Q m.
Proof.
  intros HPQ Hm w. destruct (Hm w) as (new & E & F).
  exists new. split; [done|]. eapply Forall_impl; eauto.
Qed.

Ltac prim :=
  intros w; cbv beta delta
    [os_path_isdir os_mkdir open_w f_write os_remove print capture_exception
     save_servername save_protocol effect lift_result];
  repeat case_match; cbn; try done.

Ltac prim_calls ev :=
  intros w; exists [ev]; cbv beta delta
    [os_path_isdir os_mkdir open_w f_write os_remove print capture_exception
     save_servername save_protocol effect lift_result];
  repeat case_match; cbn; (split; [done | by repeat constructor]).

Lemma isdir_conn p : keeps conn (os_path_isdir p).
Proof. prim. Qed.
Lemma isdir_sink p : keeps sink (os_path_isdir p).
Proof. prim. Qed.
Lemma isdir_fs p : keeps fs (os_path_isdir p).
Proof. prim. Qed.
Lemma isdir_calls p : only_calls generator_event (os_path_isdir p).
Proof. prim_calls (EvIsdir p). Qed.

Lemma mkdir_conn p : keeps conn (os_mkdir p).
Proof. prim. Qed.
Lemma mkdir_sink p : keeps sink (os_mkdir p).
Proof. prim. Qed.
Lemma mkdir_calls p : only_calls generator_event (os_mkdir p).
Proof. prim_calls (EvMkdir p). Qed.

Lemma open_conn p : keeps conn (open_w p).
Proof. prim. Qed.
Lemma open_sink p : keeps sink (open_w p).
Proof. prim. Qed.
Lemma open_calls p : only_calls generator_event (open_w p).
Proof. prim_calls (EvOpenW p). Qed.

Lemma write_conn p t : keeps conn (f_write p t).
Proof. prim. Qed.
Lemma write_sink p t : keeps sink (f_write p t).
Proof. prim. Qed.
Lemma write_calls p t : only_calls generator_event (f_write p t).
Proof. prim_calls (EvWrite p t). Qed.

Lemma print_conn s : keeps conn (print s).
Proof. prim. Qed.
Lemma print_sink s : keeps sink (print s).
Proof. prim. Qed.
Lemma print_fs s : keeps fs (print s).
Proof. prim. Qed.
Lemma print_calls s : only_calls stub_event (print s).
Proof. prim_calls (EvPrint s). Qed.

Lemma capture_conn e : keeps conn (capture_exception e).
Proof. prim. Qed.
Lemma capture_fs e : keeps fs (capture_exception e).
Proof. prim. Qed.
Lemma capture_calls e : only_calls dispatch_event (capture_exception e).
Proof. prim_calls (EvCapture e). Qed.

Lemma lift_conn {A} ev (r : exn + A) : keeps conn (lift_result ev r).
Proof. prim. Qed.
Lemma lift_sink {A} ev (r : exn + A) : keeps sink (lift_result ev r).
Proof. prim. Qed.
Lemma lift_fs {A} ev (r : exn + A) : keeps fs (lift_result ev r).
Proof. prim. Qed.

Create HintDb frame.
#[export] Hint Resolve
  keeps_ret keeps_raise keeps_bind keeps_try keeps_getitem
  only_calls_ret only_calls_raise only_calls_bind only_calls_try
  only_calls_getitem
  isdir_conn isdir_sink isdir_fs isdir_calls mkdir_conn mkdir_sink mkdir_calls
  open_conn open_sink open_calls write_conn write_sink write_calls
  print_conn print_sink print_fs print_calls capture_conn capture_fs capture_calls
  lift_conn lift_sink lift_fs : frame.

Ltac frame :=
  repeat first
    [ progress auto with frame
    | apply keeps_bind | apply keeps_try
    | apply only_calls_bind | apply only_calls_try
    | apply only_calls_lift; exact I
    | match goal with |- ∀ _, _ => intros ? end
    | case_match ].

Section Framing.
Context (PE : ProtocolEnum.t) (PP : ProtocolPortEnum.t) (K : Constants).
Context (j2 : Engine).

Lemma ensure_conn : keeps conn (ensure_cache_dir K).
Proof. unfold ensure_cache_dir. frame. Qed.

Lemma ensure_sink : keeps sink (ensure_cache_dir K).
Proof. unfold ensure_cache_dir. frame. Qed.

Lemma ensure_calls : only_calls generator_event (ensure_cache_dir K).
Proof. unfold ensure_cache_dir. frame. Qed.

Lemma openvpn_conn s l c p : keeps conn (generate_openvpn_cert PE PP K j2 s l c p).
Proof.
  unfold generate_openvpn_cert, write_cert, j2_get_template, template_render.
  cbv zeta. pose proof ensure_conn. frame.
Qed.

Lemma openvpn_sink s l c p : keeps sink (generate_openvpn_cert PE PP K j2 s l c p).
Proof.
  unfold generate_openvpn_cert, write_cert, j2_get_template, template_render.
  cbv zeta. pose proof ensure_sink. frame.
Qed.

Lemma openvpn_calls s l c p :
  only_calls generator_event (generate_openvpn_cert PE PP K j2 s l c p).
Proof.
  unfold generate_openvpn_cert, write_cert, j2_get_template, template_render.
  cbv zeta. pose proof ensure_calls. frame.
Qed.

End Framing.

(** *** The dispatch table *)

Lemma elem_of_pair {A} (x a b : A) : x ∈ [a; b] ↔ x = a ∨ x = b.
Proof. rewrite !elem_of_cons, elem_of_nil. tauto. Qed.

Lemma getitem_unknown {A} (d : gmap string A) (p : string) w :
  d !! p = None → getitem d (PStr p) w = (Raise (Raised KeyError (PStr p)), w).
Proof. intros H. unfold getitem. by rewrite H. Qed.

Lemma getitem_known {A} (d : gmap string A) (p : string) a w :
  d !! p = Some a → getitem d (PStr p) w = (Ret a, w).
Proof. intros H. unfold getitem. by rewrite H. Qed.

Lemma getitem_bind_cases {A C} (d : gmap string A) (k : pyval)
    (f : A → M C) (w : World) :
  (∃ p a, k = PStr p ∧ d !! p = Some a ∧ (getitem d k ≫= f) w = f a w) ∨
  (∃ e, (getitem d k ≫= f) w = (Raise e, w) ∧
        (class_of e = KeyError → ∀ p, k = PStr p → d !! p = None)).
Proof.
  unfold mbind, M_bind, getitem.
  destruct k as [| | |p| |]; try (right; eexists; split; [done|]; congruence).
  destruct (d !! p) as [a|] eqn:E.
  - left. by exists p, a.
  - right. eexists. split; [done|]. congruence.
Qed.

Lemma keeps_getitem_bind {B A C} (proj : World → B) (d : gmap string A) k
    (f : A → M C) :
  (∀ p a, d !! p = Some a → keeps proj (f a)) →
  keeps proj (getitem d k ≫= f).
Proof.
  intros Hf w.
  destruct (getitem_bind_cases d k f w) as [(p & a & _ & E & ->)|(e & -> & _)];
    [by eapply Hf | done].
Qed.

Lemma only_calls_getitem_bind {A C} (P : event → Prop) (d : gmap string A) k
    (f : A → M C) :
  (∀ p a, d !! p = Some a → only_calls P (f a)) →
  only_calls P (getitem d k ≫= f).
Proof.
  intros Hf w.
  destruct (getitem_bind_cases d k f w) as [(p & a & _ & E & ->)|(e & -> & _)];
    [by eapply Hf |].
  exists []. by rewrite app_nil_r.
Qed.

Section Dispatch.
Context (PE : ProtocolEnum.t) (PP : ProtocolPortEnum.t) (K : Constants).
Context (j2 : Engine).

Local Abbreviation protocol_dict :=
  (<[ProtocolEnum.WIREGUARD PE := generate_wireguard_cert]>
     (<[ProtocolEnum.IKEV2 PE := generate_strongswan_cert]>
        (<[ProtocolEnum.UDP PE := generate_openvpn_cert PE PP K j2]>
           (<[ProtocolEnum.TCP PE := generate_openvpn_cert PE PP K j2]>
              (∅ : gmap string (pyval → pyval → string → pyval → M pyval)))))).

Lemma protocol_dict_lookup (p : string) :
  protocol_dict !! p =
  if decide (ProtocolEnum.WIREGUARD PE = p) then Some generate_wireguard_cert
  else if decide (ProtocolEnum.IKEV2 PE = p) then Some generate_strongswan_cert
  else if decide (ProtocolEnum.UDP PE = p)
       then Some (generate_openvpn_cert PE PP K j2)
  else if decide (ProtocolEnum.TCP PE = p)
       then Some (generate_openvpn_cert PE PP K j2)
  else None.
Proof. rewrite !lookup_insert. by repeat case_decide. Qed.

Lemma protocol_dict_range p g :
  protocol_dict !! p = Some g →
  g = generate_wireguard_cert ∨ g = generate_strongswan_cert ∨
  g = generate_openvpn_cert PE PP K j2.
Proof.
  rewrite protocol_dict_lookup.
  repeat case_decide; intros [= <-]; auto.
Qed.

Lemma protocol_dict_unknown p :
  p ∉ ProtocolEnum.members PE → protocol_dict !! p = None.
Proof.
  unfold ProtocolEnum.members. rewrite !not_elem_of_cons.
  intros (? & ? & ? & ? & _). rewrite protocol_dict_lookup.
  repeat case_decide; congruence.
Qed.

Lemma protocol_dict_openvpn p :
  NoDup (ProtocolEnum.members PE) →
  p ∈ [ProtocolEnum.TCP PE; ProtocolEnum.UDP PE] →
  protocol_dict !! p = Some (generate_openvpn_cert PE PP K j2).
Proof.
  unfold ProtocolEnum.members.
  rewrite !NoDup_cons, !not_elem_of_cons, elem_of_pair.
  intros ((? & ? & ? & _) & (? & ? & _) & _) Hp.
  rewrite protocol_dict_lookup.
  destruct Hp as [-> | ->]; repeat case_decide; congruence.
Qed.

Lemma protocol_dict_stub p :
  p ∈ [ProtocolEnum.IKEV2 PE; ProtocolEnum.WIREGUARD PE] →
  protocol_dict !! p = Some generate_wireguard_cert ∨
  protocol_dict !! p = Some generate_strongswan_cert.
Proof.
  rewrite elem_of_pair. intros Hp. rewrite protocol_dict_lookup.
  destruct Hp as [-> | ->]; repeat case_decide; auto; congruence.
Qed.

Lemma try_dispatch_conn protocol s l c :
  keeps conn (try_dispatch PE PP K j2 protocol s l c).
Proof.
  unfold try_dispatch. cbv zeta. apply keeps_try.
  - apply keeps_getitem_bind. intros p g Hg.
    destruct (protocol_dict_range p g Hg) as [-> | [-> | ->]];
      [unfold generate_wireguard_cert | unfold generate_strongswan_cert
      | apply openvpn_conn]; frame.
  - frame.
Qed.

Lemma try_dispatch_calls protocol s l c :
  only_calls dispatch_event (try_dispatch PE PP K j2 protocol s l c).
Proof.
  unfold try_dispatch. cbv zeta. apply only_calls_try.
  - apply only_calls_getitem_bind. intros p g Hg.
    destruct (protocol_dict_range p g Hg) as [-> | [-> | ->]].
    + apply (only_calls_weaken stub_event); [by intros []|].
      unfold generate_wireguard_cert. frame.
    + apply (only_calls_weaken stub_event); [by intros []|].
      unfold generate_strongswan_cert. frame.
    + apply (only_calls_weaken generator_event);
        [apply generator_dispatch_event | apply openvpn_calls].
  - frame.
Qed.

(** Past the five checks the call is the two recordings followed by the
    [try] statement. *)
Lemma run_checked protocol session servername ip_list cached w :
  checks_pass protocol session servername ip_list →
  generate_vpn_cert PE PP K j2 protocol session servername ip_list cached w =
  try_dispatch PE PP K j2 protocol servername ip_list
    (default (CACHED_OPENVPN_CERTIFICATE K) cached)
    (after_recording servername protocol w).
Proof.
  intros (Hp & Hu & Hs & Hl & Hn). unfold generate_vpn_cert.
  rewrite Hp, Hu, Hs, Hl. destruct (Nat.eqb_spec (len ip_list) 0); done.
Qed.

End Dispatch.

(** *** Running a computation step by step *)

Lemma bind_ret_run {A C} (m : M A) (k : A → M C) w a w1 :
  m w = (Ret a, w1) → (m ≫= k) w = k a w1.
Proof. intros H. unfold mbind, M_bind. by rewrite H. Qed.

Lemma bind_raise_run {A C} (m : M A) (k : A → M C) w e w1 :
  m w = (Raise e, w1) → (m ≫= k) w = (Raise e, w1).
Proof. intros H. unfold mbind, M_bind. by rewrite H. Qed.

Lemma try_ret_run {A} (m : M A) h w a w1 :
  m w = (Ret a, w1) → try_except m h w = (Ret a, w1).
Proof. intros H. unfold try_except. by rewrite H. Qed.

Lemma try_raise_run {A} (m : M A) h w e w1 :
  m w = (Raise e, w1) → try_except m h w = h e w1.
Proof. intros H. unfold try_except. by rewrite H. Qed.

Ltac world :=
  cbn [fs conn sink stdout calls set_fs set_conn set_sink set_stdout
       log_call after_recording after_capture fst snd] in *.

Lemma open_w_ok p w :
  writable (fs w) p →
  open_w p w =
  (Ret (), set_fs (<[p := File EmptyString]> (fs w)) (log_call (EvOpenW p) w)).
Proof.
  unfold writable, open_w.
  by destruct (resolve (fs w) p) as [k [x|]|k|k [|]| | |].
Qed.

Lemma f_write_opened p text w f :
  writable f p →
  fs w = <[p := File EmptyString]> f →
  ∃ w', f_write p text w = (Ret (), w') ∧ fs w' = <[p := File text]> f ∧
        conn w' = conn w ∧ sink w' = sink w ∧ stdout w' = stdout w ∧
        calls w' = calls w ++ [EvWrite p text].
Proof.
  intros Hw E. unfold f_write. rewrite E, insert_file_lookup by done.
  eexists. split; [done|]. world. by rewrite insert_file_twice.
Qed.

Section Generators.
Context (PE : ProtocolEnum.t) (PP : ProtocolPortEnum.t) (K : Constants).
Context (j2 : Engine).

Local Abbreviation home := (PROTON_XDG_CACHE_HOME K).
Local Abbreviation openvpn := (generate_openvpn_cert PE PP K j2).
Local Abbreviation ports_dict :=
  (<[ProtocolEnum.UDP PE := ProtocolPortEnum.UDP PP]>
     (<[ProtocolEnum.TCP PE := ProtocolPortEnum.TCP PP]>
        (∅ : gmap string pyval))).

Lemma ensure_cache_dir_present w :
  is_dir (fs w) home = true →
  ensure_cache_dir K w = (Ret (), log_call (EvIsdir home) w).
Proof.
  intros H. unfold ensure_cache_dir.
  erewrite bind_ret_run by reflexivity. by rewrite H.
Qed.

Lemma ensure_cache_dir_absent w :
  fs w !! home = None →
  parent_is_dir (fs w) home = true →
  ensure_cache_dir K w =
  (Ret (), set_fs (<[home := Dir]> (fs w))
             (log_call (EvMkdir home) (log_call (EvIsdir home) w))).
Proof.
  intros Hnone Hpar. unfold ensure_cache_dir.
  erewrite bind_ret_run by reflexivity.
  unfold is_dir. rewrite Hnone. cbn [negb]. unfold os_mkdir. world.
  destruct (absent_creatable _ _ Hnone Hpar) as (k & sl & ->). done.
Qed.

(** The step succeeds exactly when the directory is there or can be
    made, and then the directory is there. *)
Lemma ensure_ret_inv w w1 :
  ensure_cache_dir K w = (Ret (), w1) →
  (is_dir (fs w) home = true ∧ w1 = log_call (EvIsdir home) w ∨
   is_dir (fs w) home = false ∧ fs w !! home = None ∧
   parent_is_dir (fs w) home = true ∧
   w1 = set_fs (<[home := Dir]> (fs w))
          (log_call (EvMkdir home) (log_call (EvIsdir home) w))).
Proof.
  unfold ensure_cache_dir, mbind, M_bind, mret, M_ret, os_path_isdir, os_mkdir.
  cbv zeta. world. destruct (is_dir (fs w) home) eqn:E; cbn [negb].
  - intros [= <-]. by left.
  - world. unfold lookup, fs_lookup, parent_is_dir.
    destruct (resolve (fs w) home) as [k n|k|k sl| | |]; try done.
    intros [= <-]. by right.
Qed.

Lemma ensure_cache_dir_post w w1 :
  ensure_cache_dir K w = (Ret (), w1) → is_dir (fs w1) home = true.
Proof.
  intros [[Hd ->] | (_ & Hn & Hp & ->)]%ensure_ret_inv; world; [done|].
  by apply mkdir_is_dir.
Qed.

Lemma ports_lookup p port w :
  ProtocolEnum.TCP PE ≠ ProtocolEnum.UDP PE →
  (p, port) ∈ [(ProtocolEnum.TCP PE, ProtocolPortEnum.TCP PP);
               (ProtocolEnum.UDP PE, ProtocolPortEnum.UDP PP)] →
  getitem (<[ProtocolEnum.UDP PE := ProtocolPortEnum.UDP PP]>
             (<[ProtocolEnum.TCP PE := ProtocolPortEnum.TCP PP]> ∅))
    (PStr p) w = (Ret port, w).
Proof.
  intros Hne [[= -> ->] | [= -> ->]]%elem_of_pair; apply getitem_known.
  - rewrite lookup_insert_ne by done. apply lookup_insert_eq.
  - apply lookup_insert_eq.
Qed.


Lemma open_w_keeps_dir path d : maintains (λ w, is_dir (fs w) d = true) (open_w path).
Proof.
  intros w Hd. unfold open_w.
  destruct (resolve (fs w) path) as [k [x|]|k|k [|]| | |] eqn:E; world;
    try done; apply insert_file_keeps_dir; try done;
    unfold writable; by rewrite E.
Qed.

Lemma f_write_keeps_dir path text d :
  maintains (λ w, is_dir (fs w) d = true) (f_write path text).
Proof.
  intros w Hd. unfold f_write.
  destruct (fs w !! path) as [[c|]|] eqn:E; world; try done.
  apply insert_file_keeps_dir; [|done]. by eapply lookup_file_writable.
Qed.

(** The [with] block never removes a directory. *)
Lemma write_cert_keeps_dir path tpl vars d :
  maintains (λ w, is_dir (fs w) d = true) (write_cert j2 path tpl vars).
Proof.
  unfold write_cert, template_render.
  apply maintains_bind; [apply open_w_keeps_dir | intros _].
  apply maintains_bind; [| intros text; apply f_write_keeps_dir].
  intros w Hd. unfold lift_result. by case_match.
Qed.

(** The [with] block starts by opening the file, whatever comes next. *)
Lemma write_cert_opens_first path tpl vars w :
  ∃ tail, calls (write_cert j2 path tpl vars w).2 =
          calls w ++ [EvOpenW path] ++ tail.
Proof.
  unfold write_cert, template_render, mbind, M_bind.
  destruct (open_w path w) as [[[]|e] w1] eqn:Hopen.
  2:{ exists []. revert Hopen. unfold open_w.
      repeat case_match; intros [= <- <-]; done. }
  assert (calls w1 = calls w ++ [EvOpenW path]) as Hc.
  { revert Hopen. unfold open_w. repeat case_match; intros [= <-]; done. }
  unfold lift_result. destruct (render j2 tpl vars) as [e|text].
  - exists [EvRender vars]. cbn [snd]. world. by rewrite Hc, <- app_assoc.
  - exists [EvRender vars; EvWrite path text]. unfold f_write. cbv zeta.
    world. destruct (fs w1 !! path) as [[old|]|]; cbn [snd]; world;
      by rewrite Hc, <- !app_assoc.
Qed.

Lemma ensure_cache_dir_calls w :
  calls (ensure_cache_dir K w).2 = calls w ++ [EvIsdir home] ∨
  calls (ensure_cache_dir K w).2 = calls w ++ [EvIsdir home; EvMkdir home].
Proof.
  unfold ensure_cache_dir, mbind, M_bind, mret, M_ret, os_path_isdir, os_mkdir.
  cbv zeta. world. destruct (is_dir (fs w) home); cbn [negb]; world; [by left|].
  right. repeat case_match; world; by rewrite <- app_assoc.
Qed.

(** The step on a machine where it can succeed. *)
Lemma ensure_cache_dir_ok w :
  is_dir (fs w) home = true ∨
    (fs w !! home = None ∧ parent_is_dir (fs w) home = true) →
  ∃ w1 mk,
    ensure_cache_dir K w = (Ret (), w1) ∧
    fs w1 = with_cache_dir K (fs w) ∧ is_dir (fs w1) home = true ∧
    conn w1 = conn w ∧ sink w1 = sink w ∧ stdout w1 = stdout w ∧
    calls w1 = calls w ++ [EvIsdir home] ++ mk ∧
    (is_dir (fs w) home = true ∧ mk = [] ∨
     is_dir (fs w) home = false ∧ mk = [EvMkdir home]).
Proof.
  unfold with_cache_dir. intros [Hd | [Hnone Hpar]].
  - rewrite ensure_cache_dir_present by done. eexists _, [].
    split; [done|]. world. rewrite Hd. repeat split; auto.
  - rewrite ensure_cache_dir_absent by done. eexists _, [EvMkdir home].
    split; [done|]. world.
    assert (is_dir (fs w) home = false) as Hd
      by (unfold is_dir; by rewrite Hnone).
    rewrite Hd, <- app_assoc. repeat split; auto. by apply mkdir_is_dir.
Qed.


Lemma ports_dict_lookup (q : string) :
  ports_dict !! q =
  if decide (ProtocolEnum.UDP PE = q) then Some (ProtocolPortEnum.UDP PP)
  else if decide (ProtocolEnum.TCP PE = q) then Some (ProtocolPortEnum.TCP PP)
  else None.
Proof. rewrite !lookup_insert. by repeat case_decide. Qed.

Lemma ports_dict_known p :
  p ∈ [ProtocolEnum.TCP PE; ProtocolEnum.UDP PE] →
  ∃ port, ports_dict !! p = Some port.
Proof.
  rewrite elem_of_pair, ports_dict_lookup.
  intros [-> | ->]; repeat case_decide; eauto; congruence.
Qed.

Lemma ports_dict_member q port :
  ports_dict !! q = Some port →
  (q, port) ∈ [(ProtocolEnum.TCP PE, ProtocolPortEnum.TCP PP);
               (ProtocolEnum.UDP PE, ProtocolPortEnum.UDP PP)].
Proof.
  rewrite ports_dict_lookup, elem_of_pair.
  repeat case_decide; intros [= <-]; subst; auto.
Qed.

(** The OpenVPN generator up to the point where the template is in hand. *)
Lemma openvpn_prefix s l c p tpl w :
  p ∈ [ProtocolEnum.TCP PE; ProtocolEnum.UDP PE] →
  get_template j2 (TEMPLATES K) (OPENVPN_TEMPLATE K) = inr tpl →
  ∃ port,
    ports_dict !! p = Some port ∧
    openvpn s l c (PStr p) w =
    (ensure_cache_dir K;;
     write_cert j2 c tpl (j2_values_of (PStr p) l port);;
     mret (PStr c))
      (log_call (EvGetTemplate (TEMPLATES K) (OPENVPN_TEMPLATE K)) w).
Proof.
  intros Hp Ht. destruct (ports_dict_known p Hp) as [port Hport].
  exists port. split; [done|]. unfold generate_openvpn_cert. cbv zeta.
  erewrite bind_ret_run by (by apply getitem_known).
  unfold j2_get_template.
  by erewrite bind_ret_run by (unfold lift_result; by rewrite Ht).
Qed.

(** With the template in hand and a cache directory that is there or can
    be made, the generator tests the directory, makes it when it is not
    there, and only then opens the cache file; the directory is there when
    the generator is done, whatever became of the file. *)
Lemma openvpn_ensures s l c p tpl w :
  p ∈ [ProtocolEnum.TCP PE; ProtocolEnum.UDP PE] →
  get_template j2 (TEMPLATES K) (OPENVPN_TEMPLATE K) = inr tpl →
  is_dir (fs w) home = true ∨
    (fs w !! home = None ∧ parent_is_dir (fs w) home = true) →
  ∃ r w' mk tail,
    openvpn s l c (PStr p) w = (r, w') ∧
    calls w' = calls w ++
      [EvGetTemplate (TEMPLATES K) (OPENVPN_TEMPLATE K); EvIsdir home] ++
      mk ++ [EvOpenW c] ++ tail ∧
    (is_dir (fs w) home = true ∧ mk = [] ∨
     is_dir (fs w) home = false ∧ mk = [EvMkdir home]) ∧
    is_dir (fs w') home = true.
Proof.
  intros Hp Ht Hdir.
  destruct (openvpn_prefix s l c p tpl w Hp Ht) as (port & _ & ->).
  destruct (ensure_cache_dir_ok
              (log_call (EvGetTemplate (TEMPLATES K) (OPENVPN_TEMPLATE K)) w))
    as (w1 & mk & Hens & _ & Hd1 & _ & _ & _ & Hc1 & Hmk); [exact Hdir|].
  erewrite bind_ret_run by exact Hens.
  destruct (write_cert_opens_first c tpl (j2_values_of (PStr p) l port) w1)
    as (tail & Hc2).
  pose proof (write_cert_keeps_dir c tpl (j2_values_of (PStr p) l port)
                home w1 Hd1) as Hd2.
  unfold mbind, M_bind.
  destruct (write_cert j2 c tpl (j2_values_of (PStr p) l port) w1)
    as [[[]|e] w2]; cbn [snd] in *; eexists _, w2, mk, tail;
    (split; [reflexivity|]); rewrite Hc2, Hc1; world;
    rewrite <- !app_assoc; by repeat split.
Qed.

End Generators.

(** ** Specification theorems *)

Section Claims.
Context (PE : ProtocolEnum.t) (PP : ProtocolPortEnum.t) (K : Constants).
Context (j2 : Engine).

Local Abbreviation run := (generate_vpn_cert PE PP K j2).
Local Abbreviation openvpn := (generate_openvpn_cert PE PP K j2).
Local Abbreviation home := (PROTON_XDG_CACHE_HOME K).
Local Abbreviation path_of c := (default (CACHED_OPENVPN_CERTIFICATE K) c).

Lemma checks_pass_intro p u s ips :
  ips ≠ [] → checks_pass (PStr p) (PSession u) (PStr s) (PList ips).
Proof. intros H. repeat split. by destruct ips. Qed.

(** Past the checks, with a protocol served by the OpenVPN generator, the
    call is that generator run under the three handlers. *)
Lemma run_openvpn p u s ips cached w :
  NoDup (ProtocolEnum.members PE) →
  p ∈ [ProtocolEnum.TCP PE; ProtocolEnum.UDP PE] →
  ips ≠ [] →
  run (PStr p) (PSession u) (PStr s) (PList ips) cached w =
  try_except (openvpn (PStr s) (PList ips) (path_of cached) (PStr p))
    (λ e,
      if decide (class_of e = KeyError) then
        raise (Wrapping IllegalVPNProtocol e)
      else if decide (class_of e = TemplateNotFound) then
        raise (Wrapping TemplateNotFound e)
      else capture_exception e;; mret PNone)
    (after_recording (PStr s) (PStr p) w).
Proof.
  intros Hd Hp Hips. rewrite run_checked by by apply checks_pass_intro.
  unfold try_dispatch, try_except. cbv zeta.
  erewrite bind_ret_run
    by (apply getitem_known; by apply protocol_dict_openvpn).
  done.
Qed.


(** C2: the five checks run in the order protocol, session, servername,
    type of ip_list, length of ip_list; the first one that fails raises its
    error (a [TypeError] for the first four, [ValueError("No servers were
    provided")] for the fifth, whatever the protocol string) and leaves the
    whole world as it was: nothing recorded, no collaborator called, no file
    touched.  When all five pass no validation error is raised: the call
    records and enters the [try] statement. *)
Theorem validation_order protocol session servername ip_list cached w :
  (isinstance_str protocol = false →
     run protocol session servername ip_list cached w =
     (Raise (type_error "str" protocol), w)) ∧
  (isinstance_str protocol = true →
   isinstance_Session session = false →
     run protocol session servername ip_list cached w =
     (Raise (type_error "<class 'type'>" protocol), w)) ∧
  (isinstance_str protocol = true →
   isinstance_Session session = true →
   isinstance_str servername = false →
     run protocol session servername ip_list cached w =
     (Raise (type_error "str" servername), w)) ∧
  (isinstance_str protocol = true →
   isinstance_Session session = true →
   isinstance_str servername = true →
   isinstance_list ip_list = false →
     run protocol session servername ip_list cached w =
     (Raise (type_error "list" ip_list), w)) ∧
  (isinstance_str protocol = true →
   isinstance_Session session = true →
   isinstance_str servername = true →
   isinstance_list ip_list = true →
   len ip_list = 0 →
     run protocol session servername ip_list cached w =
     (Raise (Raised ValueError (PStr "No servers were provided")), w)) ∧
  (checks_pass protocol session servername ip_list →
     run protocol session servername ip_list cached w =
     try_dispatch PE PP K j2 protocol servername ip_list (path_of cached)
       (after_recording servername protocol w)).
Proof.
  repeat split; [unfold generate_vpn_cert .. | apply run_checked].
  - by intros ->.
  - by intros -> ->.
  - by intros -> -> ->.
  - by intros -> -> -> ->.
  - by intros -> -> -> -> ->.
Qed.

(** C3: with the right types and a non-empty list, a protocol string that
    is none of TCP, UDP, IKEV2, WIREGUARD makes [generate_vpn_cert] raise
    [IllegalVPNProtocol] wrapping the [KeyError] of the table lookup; the
    server name and the protocol have been recorded by then. *)
Theorem unsupported_protocol p u s ips cached w :
  p ∉ ProtocolEnum.members PE →
  ips ≠ [] →
  run (PStr p) (PSession u) (PStr s) (PList ips) cached w =
  (Raise (Wrapping IllegalVPNProtocol (Raised KeyError (PStr p))),
   after_recording (PStr s) (PStr p) w).
Proof.
  intros Hp Hips. rewrite run_checked by by apply checks_pass_intro.
  unfold try_dispatch. cbv zeta.
  erewrite try_raise_run
    by (apply bind_raise_run, getitem_unknown; by apply protocol_dict_unknown).
  done.
Qed.

(** C4: for IKEV2 and WIREGUARD, whatever the server name, the non-empty
    address list and the cache path, [generate_vpn_cert] returns [True];
    the file system is as before and the only calls made are the two
    recordings and the stub's [print]: no template is looked up or
    rendered, no directory made, no file opened or written. *)
Theorem stub_generators p u s ips cached w :
  p ∈ [ProtocolEnum.IKEV2 PE; ProtocolEnum.WIREGUARD PE] →
  ips ≠ [] →
  ∃ w' msg,
    run (PStr p) (PSession u) (PStr s) (PList ips) cached w =
      (Ret (PBool true), w') ∧
    fs w' = fs w ∧
    calls w' = calls w ++ [EvSaveServername (PStr s); EvSaveProtocol (PStr p);
                           EvPrint msg] ∧
    Forall (λ ev, is_render_or_write ev = false)
      [EvSaveServername (PStr s); EvSaveProtocol (PStr p); EvPrint msg].
Proof.
  intros Hp Hips. rewrite run_checked by by apply checks_pass_intro.
  unfold try_dispatch, try_except. cbv zeta.
  destruct (protocol_dict_stub PE PP K j2 p Hp) as [Hg | Hg];
    (erewrite bind_ret_run by (apply getitem_known; exact Hg));
    [unfold generate_wireguard_cert | unfold generate_strongswan_cert];
    (erewrite bind_ret_run by reflexivity);
    eexists _, _; (split; [reflexivity|]); world;
    (split; [done|]); (split; [by rewrite <- !app_assoc|]);
    by repeat constructor.
Qed.

(** C5 (as the code has it): when the generator fails with a
    [TemplateNotFound] error [e], the caller does not get [e] itself:
    [generate_vpn_cert] raises a new [TemplateNotFound] built from [e], so
    the kind of the error is kept and [e] travels inside it.  Nothing is sent
    to the crash-report sink. *)
Theorem template_not_found_rewrapped p u s ips cached e w w' :
  NoDup (ProtocolEnum.members PE) →
  p ∈ [ProtocolEnum.TCP PE; ProtocolEnum.UDP PE] →
  ips ≠ [] →
  openvpn (PStr s) (PList ips) (path_of cached) (PStr p)
    (after_recording (PStr s) (PStr p) w) = (Raise e, w') →
  class_of e = TemplateNotFound →
  run (PStr p) (PSession u) (PStr s) (PList ips) cached w =
    (Raise (Wrapping TemplateNotFound e), w') ∧
  class_of (Wrapping TemplateNotFound e) = class_of e ∧
  sink w' = sink w.
Proof.
  intros Hd Hp Hips Hrun He. rewrite run_openvpn by done.
  erewrite try_raise_run by exact Hrun. rewrite He.
  repeat split.
  pose proof (openvpn_sink PE PP K j2 (PStr s) (PList ips) (path_of cached)
                (PStr p) (after_recording (PStr s) (PStr p) w)) as Hs.
  by rewrite Hrun in Hs.
Qed.

(** C6 (as the code has it): a failure of the generator that is neither a
    [KeyError], wherever it was raised, nor a [TemplateNotFound] is handed
    to [capture_exception]; the call raises nothing and returns [None]. *)
Theorem other_failures_swallowed p u s ips cached e w w' :
  NoDup (ProtocolEnum.members PE) →
  p ∈ [ProtocolEnum.TCP PE; ProtocolEnum.UDP PE] →
  ips ≠ [] →
  openvpn (PStr s) (PList ips) (path_of cached) (PStr p)
    (after_recording (PStr s) (PStr p) w) = (Raise e, w') →
  class_of e ≠ KeyError →
  class_of e ≠ TemplateNotFound →
  run (PStr p) (PSession u) (PStr s) (PList ips) cached w =
    (Ret PNone, after_capture e w') ∧
  sink (after_capture e w') = sink w ++ [e].
Proof.
  intros Hd Hp Hips Hrun Hk Ht. rewrite run_openvpn by done.
  erewrite try_raise_run by exact Hrun.
  rewrite !decide_False by done. split; [done|]. world.
  pose proof (openvpn_sink PE PP K j2 (PStr s) (PList ips) (path_of cached)
                (PStr p) (after_recording (PStr s) (PStr p) w)) as Hs.
  rewrite Hrun in Hs. world. by rewrite Hs.
Qed.

(** C7: once the five checks pass, the server name and the protocol are
    written into the connection state, one call each, ahead of everything
    the [try] statement does, and they stay there whatever the outcome of
    the dispatch: the final connection state holds them, the trace starts
    with the two recordings and has no further one. *)
Theorem recording_before_dispatch protocol session servername ip_list cached w :
  checks_pass protocol session servername ip_list →
  ∃ r w' rest,
    run protocol session servername ip_list cached w = (r, w') ∧
    try_dispatch PE PP K j2 protocol servername ip_list (path_of cached)
      (after_recording servername protocol w) = (r, w') ∧
    conn w' = {| lastServerName := Some servername;
                 lastProtocol := Some protocol |} ∧
    calls w' = calls w ++ [EvSaveServername servername;
                           EvSaveProtocol protocol] ++ rest ∧
    Forall (λ ev, is_recording ev = false) rest.
Proof.
  intros Hc. rewrite run_checked by done.
  pose proof (try_dispatch_conn PE PP K j2 protocol servername ip_list
                (path_of cached) (after_recording servername protocol w)) as Hconn.
  destruct (try_dispatch_calls PE PP K j2 protocol servername ip_list
              (path_of cached) (after_recording servername protocol w))
    as (rest & Hcalls & Hrest).
  destruct (try_dispatch _ _ _ _ _ _ _ _ _) as [r w'].
  exists r, w', rest. cbn [snd] in *.
  rewrite Hconn, Hcalls, after_recording_calls, <- app_assoc.
  by repeat split.
Qed.


(** C9: the step that guards the write, and the generator around it.
    When the cache directory is there the step succeeds without creating
    anything; when it is absent and can be made the step makes it; whenever
    the step succeeds the directory is there afterwards and a second run of
    the step succeeds again and creates nothing.  With the template in hand
    the generator runs the step ahead of the write: it tests the directory,
    calls [os.mkdir] exactly when the test failed, and then opens the cache
    file; the directory is there at the end, and a second run of the
    generator goes from the test straight to the opening.  In every run of
    the generator an opening of the cache file comes after the test, and
    after the making when the directory was not there. *)
Theorem cache_dir_ensured s l c p tpl w :
  (is_dir (fs w) home = true →
     ensure_cache_dir K w = (Ret (), log_call (EvIsdir home) w)) ∧
  (fs w !! home = None → parent_is_dir (fs w) home = true →
     ∃ w1, ensure_cache_dir K w = (Ret (), w1) ∧
           fs w1 = <[home := Dir]> (fs w)) ∧
  (∀ w1, ensure_cache_dir K w = (Ret (), w1) →
     is_dir (fs w1) home = true ∧
     ensure_cache_dir K w1 = (Ret (), log_call (EvIsdir home) w1)) ∧
  (p ∈ [ProtocolEnum.TCP PE; ProtocolEnum.UDP PE] →
   get_template j2 (TEMPLATES K) (OPENVPN_TEMPLATE K) = inr tpl →
   is_dir (fs w) home = true ∨
     (fs w !! home = None ∧ parent_is_dir (fs w) home = true) →
   ∃ r w' mk tail,
     openvpn s l c (PStr p) w = (r, w') ∧
     calls w' = calls w ++
       [EvGetTemplate (TEMPLATES K) (OPENVPN_TEMPLATE K); EvIsdir home] ++
       mk ++ [EvOpenW c] ++ tail ∧
     (is_dir (fs w) home = true ∧ mk = [] ∨
      is_dir (fs w) home = false ∧ mk = [EvMkdir home]) ∧
     is_dir (fs w') home = true ∧
     ∃ r2 w2 tail2,
       openvpn s l c (PStr p) w' = (r2, w2) ∧
       calls w2 = calls w' ++
         [EvGetTemplate (TEMPLATES K) (OPENVPN_TEMPLATE K); EvIsdir home;
          EvOpenW c] ++ tail2 ∧
       is_dir (fs w2) home = true) ∧
  (∀ protocol r w', openvpn s l c protocol w = (r, w') →
     ∃ new, calls w' = calls w ++ new ∧
       ∀ i, new !! i = Some (EvOpenW c) →
         is_dir (fs w') home = true ∧
         ∃ mk tail,
           new = [EvGetTemplate (TEMPLATES K) (OPENVPN_TEMPLATE K);
                  EvIsdir home] ++ mk ++ [EvOpenW c] ++ tail ∧
           (is_dir (fs w) home = true ∧ mk = [] ∨
            is_dir (fs w) home = false ∧ mk = [EvMkdir home])).
Proof.
  split; [apply ensure_cache_dir_present|].
  split; [intros; eexists; split; [by apply ensure_cache_dir_absent | done]|].
  split.
  { intros w1 Hens. pose proof (ensure_cache_dir_post K w w1 Hens).
    split; [done | by apply ensure_cache_dir_present]. }
  split.
  { intros Hp Ht Hdir.
    destruct (openvpn_ensures PE PP K j2 s l c p tpl w Hp Ht Hdir)
      as (r & w' & mk & tail & Hrun & Hcalls & Hmk & Hd').
    exists r, w', mk, tail. repeat split; try done.
    destruct (openvpn_ensures PE PP K j2 s l c p tpl w' Hp Ht (or_introl Hd'))
      as (r2 & w2 & mk2 & tail2 & Hrun2 & Hcalls2 & Hmk2 & Hd2).
    exists r2, w2, tail2. repeat split; try done.
    destruct Hmk2 as [[_ ->] | [Hf _]]; [done | congruence]. }
  intros protocol r w' Hrun. unfold generate_openvpn_cert in Hrun.
  cbv zeta in Hrun.
  match type of Hrun with (getitem ?d ?k ≫= ?f) _ = _ =>
    destruct (getitem_bind_cases d k f w) as [(q & port & -> & _ & E)|(e & E & _)]
  end; rewrite E in Hrun; clear E.
  2:{ injection Hrun as <- <-. exists []. rewrite app_nil_r.
      split; [done|]. intros i Hi. by rewrite lookup_nil in Hi. }
  unfold j2_get_template, lift_result in Hrun.
  unfold mbind at 1, M_bind at 1 in Hrun.
  destruct (get_template j2 (TEMPLATES K) (OPENVPN_TEMPLATE K)) as [e|t].
  { injection Hrun as <- <-. eexists [_]. split; [done|].
    intros [|[|i]] Hi; discriminate. }
  unfold mbind at 1, M_bind at 1 in Hrun.
  set (w1 := log_call _ w) in Hrun.
  pose proof (ensure_cache_dir_calls K w1) as Hcalls.
  destruct (ensure_cache_dir K w1) as [[[]|e] w2] eqn:Hens; cbn [snd] in Hcalls.
  2:{ injection Hrun as <- <-.
      destruct Hcalls as [-> | ->]; subst w1; world; rewrite <- app_assoc;
        eexists; (split; [reflexivity|]);
        intros [|[|[|i]]] Hi; discriminate. }
  pose proof (ensure_cache_dir_post K w1 w2 Hens) as Hpost.
  apply ensure_ret_inv in Hens.
  unfold mbind at 1, M_bind at 1 in Hrun.
  match type of Hrun with context [write_cert j2 c t ?vars w2] =>
    pose proof (write_cert_keeps_dir j2 c t vars home w2 Hpost) as Hdir;
    destruct (write_cert_opens_first j2 c t vars w2) as (tail & Htail);
    destruct (write_cert j2 c t vars w2) as [[[]|e] w3]
  end; injection Hrun as <- <-; cbn [snd] in *; rewrite Htail.
  all: destruct Hens as [[Hd ->] | (Hd & _ & _ & ->)]; subst w1; world;
    rewrite <- !app_assoc; eexists; (split; [reflexivity|]);
    intros i _; (split; [done|]);
    [exists [], tail | exists [EvMkdir home], tail]; split; auto.
Qed.

(** C10: the [KeyError] handler spans the whole call of the generator: a
    [KeyError] raised inside the OpenVPN generator, after the table lookup
    has succeeded, comes out as [IllegalVPNProtocol] wrapping it, and the
    crash-report sink is not called. *)
Theorem generator_keyerror_is_illegal_protocol p u s ips cached e w w' :
  NoDup (ProtocolEnum.members PE) →
  p ∈ [ProtocolEnum.TCP PE; ProtocolEnum.UDP PE] →
  ips ≠ [] →
  openvpn (PStr s) (PList ips) (path_of cached) (PStr p)
    (after_recording (PStr s) (PStr p) w) = (Raise e, w') →
  class_of e = KeyError →
  run (PStr p) (PSession u) (PStr s) (PList ips) cached w =
    (Raise (Wrapping IllegalVPNProtocol e), w') ∧
  sink w' = sink w ∧
  ∃ new, calls w' = calls w ++ new ∧
         Forall (λ ev, ∀ x, ev ≠ EvCapture x) new.
Proof.
  intros Hd Hp Hips Hrun He. rewrite run_openvpn by done.
  erewrite try_raise_run by exact Hrun. rewrite He.
  split; [done|].
  pose proof (openvpn_sink PE PP K j2 (PStr s) (PList ips) (path_of cached)
                (PStr p) (after_recording (PStr s) (PStr p) w)) as Hs.
  destruct (openvpn_calls PE PP K j2 (PStr s) (PList ips) (path_of cached)
              (PStr p) (after_recording (PStr s) (PStr p) w))
    as (new & Hc & Hnew).
  rewrite Hrun in Hs, Hc. cbn [snd] in *. split; [done|].
  exists ([EvSaveServername (PStr s); EvSaveProtocol (PStr p)] ++ new).
  rewrite Hc, after_recording_calls, <- app_assoc. split; [done|].
  apply Forall_app. split; [by repeat constructor|].
  eapply Forall_impl; [exact Hnew|]. by intros [].
Qed.

End Claims.

(** ** The theorems on the example installation *)

Lemma example_enum_distinct : NoDup (ProtocolEnum.members example_enum).
Proof. apply (bool_decide_unpack _). vm_compute. exact I. Defined.

Lemma example_tcp_openvpn :
  "tcp" ∈ [ProtocolEnum.TCP example_enum; ProtocolEnum.UDP example_enum].
Proof. apply (bool_decide_unpack _). vm_compute. exact I. Defined.


Lemma validation_order_witness :
  generate_vpn_cert example_enum example_ports example_constants
    example_engine (PInt 3) PNone PNone PNone None example_world =
    (Raise (type_error "str" (PInt 3)), example_world) ∧
  generate_vpn_cert example_enum example_ports example_constants
    example_engine (PStr "tcp") PNone PNone PNone None example_world =
    (Raise (type_error "<class 'type'>" (PStr "tcp")), example_world) ∧
  generate_vpn_cert example_enum example_ports example_constants
    example_engine (PStr "tcp") (PSession 1) PNone PNone None example_world =
    (Raise (type_error "str" PNone), example_world) ∧
  generate_vpn_cert example_enum example_ports example_constants
    example_engine (PStr "tcp") (PSession 1) (PStr "CH#1") PNone None
    example_world =
    (Raise (type_error "list" PNone), example_world) ∧
  generate_vpn_cert example_enum example_ports example_constants
    example_engine (PStr "sstp") (PSession 1) (PStr "CH#1") (PList []) None
    example_world =
    (Raise (Raised ValueError (PStr "No servers were provided")),
     example_world) ∧
  generate_vpn_cert example_enum example_ports example_constants
    example_engine (PStr "tcp") (PSession 1) (PStr "CH#1") example_ips None
    example_world =
    try_dispatch example_enum example_ports example_constants example_engine
      (PStr "tcp") (PStr "CH#1") example_ips
      (CACHED_OPENVPN_CERTIFICATE example_constants)
      (after_recording (PStr "CH#1") (PStr "tcp") example_world).
Proof.
  split; [|split; [|split; [|split; [|split]]]].
  - apply (validation_order example_enum example_ports example_constants
             example_engine (PInt 3) PNone PNone PNone None example_world).
    reflexivity.
  - apply (validation_order example_enum example_ports example_constants
             example_engine (PStr "tcp") PNone PNone PNone None example_world);
      reflexivity.
  - apply (validation_order example_enum example_ports example_constants
             example_engine (PStr "tcp") (PSession 1) PNone PNone None
             example_world); reflexivity.
  - apply (validation_order example_enum example_ports example_constants
             example_engine (PStr "tcp") (PSession 1) (PStr "CH#1") PNone None
             example_world); reflexivity.
  - apply (validation_order example_enum example_ports example_constants
             example_engine (PStr "sstp") (PSession 1) (PStr "CH#1") (PList [])
             None example_world); reflexivity.
  - apply (validation_order example_enum example_ports example_constants
             example_engine (PStr "tcp") (PSession 1) (PStr "CH#1") example_ips
             None example_world).
    repeat split. discriminate.
Defined.

Lemma unsupported_protocol_witness :
  generate_vpn_cert example_enum example_ports example_constants
    example_engine (PStr "sstp") (PSession 1) (PStr "CH#1")
    (PList [PStr "1.2.3.4"]) None example_world =
  (Raise (Wrapping IllegalVPNProtocol (Raised KeyError (PStr "sstp"))),
   after_recording (PStr "CH#1") (PStr "sstp") example_world).
Proof.
  apply (unsupported_protocol example_enum example_ports example_constants
           example_engine "sstp" 1 "CH#1" [PStr "1.2.3.4"] None example_world).
  - apply (bool_decide_unpack _). vm_compute. exact I.
  - discriminate.
Defined.

Lemma stub_generators_witness :
  ∃ w' msg,
    generate_vpn_cert example_enum example_ports example_constants
      example_engine (PStr "wireguard") (PSession 1) (PStr "CH#1")
      (PList [PStr "1.2.3.4"]) (Some "/nowhere/cert") example_world =
      (Ret (PBool true), w') ∧
    fs w' = fs example_world ∧
    calls w' = calls example_world ++
      [EvSaveServername (PStr "CH#1"); EvSaveProtocol (PStr "wireguard");
       EvPrint msg] ∧
    Forall (λ ev, is_render_or_write ev = false)
      [EvSaveServername (PStr "CH#1"); EvSaveProtocol (PStr "wireguard");
       EvPrint msg].
Proof.
  apply (stub_generators example_enum example_ports example_constants
           example_engine "wireguard" 1 "CH#1" [PStr "1.2.3.4"]
           (Some "/nowhere/cert") example_world).
  - apply (bool_decide_unpack _). vm_compute. exact I.
  - discriminate.
Defined.

(** C5 as stated fails: with the template missing, the engine's error is
    [TemplateNotFound("openvpn_template.j2")], and what reaches the caller
    is another object, a [TemplateNotFound] that has the first one as its
    argument. *)
Lemma template_not_found_not_unchanged :
  get_template no_template_engine (TEMPLATES example_constants)
    (OPENVPN_TEMPLATE example_constants) =
    inl (Raised TemplateNotFound (PStr "openvpn_template.j2")) ∧
  (generate_vpn_cert example_enum example_ports example_constants
     no_template_engine (PStr "tcp") (PSession 1) (PStr "CH#1") example_ips
     None example_world).1 =
    Raise (Wrapping TemplateNotFound
             (Raised TemplateNotFound (PStr "openvpn_template.j2"))) ∧
  (generate_vpn_cert example_enum example_ports example_constants
     no_template_engine (PStr "tcp") (PSession 1) (PStr "CH#1") example_ips
     None example_world).1 ≠
    Raise (Raised TemplateNotFound (PStr "openvpn_template.j2")).
Proof.
  split; [reflexivity|]. split; [vm_compute; reflexivity|].
  vm_compute. discriminate.
Qed.

Lemma template_not_found_rewrapped_witness :
  (generate_vpn_cert example_enum example_ports example_constants
     no_template_engine (PStr "tcp") (PSession 1) (PStr "CH#1") example_ips
     None example_world).1 =
  Raise (Wrapping TemplateNotFound
           (Raised TemplateNotFound (PStr "openvpn_template.j2"))).
Proof.
  edestruct (template_not_found_rewrapped example_enum example_ports
               example_constants no_template_engine "tcp" 1 "CH#1"
               [PStr "1.2.3.4"] None
               (Raised TemplateNotFound (PStr "openvpn_template.j2"))
               example_world) as (H & _).
  - exact example_enum_distinct.
  - exact example_tcp_openvpn.
  - discriminate.
  - vm_compute. reflexivity.
  - reflexivity.
  - unfold example_ips. rewrite H. reflexivity.
Defined.

(** C6 as stated fails: a [KeyError] raised while the template is rendered
    is a failure during dispatch, is not the [KeyError] of the table lookup
    (the lookup of "tcp" succeeded and the generator ran), is not a
    [TemplateNotFound], and still it is not swallowed: the call raises
    [IllegalVPNProtocol] and the crash-report sink stays empty. *)
Lemma generator_keyerror_not_swallowed :
  (generate_openvpn_cert example_enum example_ports example_constants
     keyerror_engine (PStr "CH#1") example_ips
     (CACHED_OPENVPN_CERTIFICATE example_constants) (PStr "tcp")
     (after_recording (PStr "CH#1") (PStr "tcp") example_world)).1 =
    Raise (Raised KeyError (PStr "remote_port")) ∧
  class_of (Raised KeyError (PStr "remote_port")) ≠ TemplateNotFound ∧
  (generate_vpn_cert example_enum example_ports example_constants
     keyerror_engine (PStr "tcp") (PSession 1) (PStr "CH#1") example_ips
     None example_world).1 ≠ Ret PNone ∧
  sink (generate_vpn_cert example_enum example_ports example_constants
          keyerror_engine (PStr "tcp") (PSession 1) (PStr "CH#1") example_ips
          None example_world).2 = [].
Proof.
  split; [vm_compute; reflexivity|]. split; [discriminate|].
  split; [vm_compute; discriminate|].
  vm_compute. reflexivity.
Qed.

Lemma other_failures_swallowed_witness :
  (generate_vpn_cert example_enum example_ports example_constants
     example_engine (PStr "udp") (PSession 1) (PStr "CH#1") example_ips
     None bare_world).1 = Ret PNone ∧
  sink (generate_vpn_cert example_enum example_ports example_constants
          example_engine (PStr "udp") (PSession 1) (PStr "CH#1") example_ips
          None bare_world).2 =
    [Raised FileNotFoundError (PStr "/home/user/.cache/protonvpn")].
Proof.
  edestruct (other_failures_swallowed example_enum example_ports
               example_constants example_engine "udp" 1 "CH#1"
               [PStr "1.2.3.4"] None
               (Raised FileNotFoundError (PStr "/home/user/.cache/protonvpn"))
               bare_world) as (H & Hs).
  - exact example_enum_distinct.
  - apply (bool_decide_unpack _). vm_compute. exact I.
  - discriminate.
  - vm_compute. reflexivity.
  - discriminate.
  - discriminate.
  - unfold example_ips. rewrite H. split; [reflexivity | exact Hs].
Defined.

Lemma recording_before_dispatch_witness :
  ∃ w',
    generate_vpn_cert example_enum example_ports example_constants
      example_engine (PStr "sstp") (PSession 1) (PStr "CH#1") example_ips
      None example_world =
      (Raise (Wrapping IllegalVPNProtocol (Raised KeyError (PStr "sstp"))), w') ∧
    conn w' = {| lastServerName := Some (PStr "CH#1");
                 lastProtocol := Some (PStr "sstp") |}.
Proof.
  destruct (recording_before_dispatch example_enum example_ports
              example_constants example_engine (PStr "sstp") (PSession 1)
              (PStr "CH#1") example_ips None example_world)
    as (r & w' & rest & Hrun & Htry & Hconn & _).
  - repeat split. discriminate.
  - exists w'. split; [|exact Hconn]. rewrite Hrun. f_equal.
    apply (f_equal fst) in Htry. vm_compute in Htry. congruence.
Defined.


Lemma cache_dir_ensured_witness :
  ∃ r w' tail,
    generate_openvpn_cert example_enum example_ports example_constants
      example_engine (PStr "CH#1") example_ips "/tmp/cert.ovpn" (PStr "tcp")
      example_world = (r, w') ∧
    calls w' = calls example_world ++
      [EvGetTemplate (TEMPLATES example_constants)
         (OPENVPN_TEMPLATE example_constants);
       EvIsdir "/home/user/.cache/protonvpn";
       EvMkdir "/home/user/.cache/protonvpn";
       EvOpenW "/tmp/cert.ovpn"] ++ tail ∧
    is_dir (fs w') "/home/user/.cache/protonvpn" = true.
Proof.
  destruct (cache_dir_ensured example_enum example_ports example_constants
              example_engine (PStr "CH#1") example_ips "/tmp/cert.ovpn" "tcp"
              "openvpn_template.j2" example_world)
    as (_ & _ & _ & H & _).
  destruct H as (r & w' & mk & tail & Hrun & Hcalls & Hmk & Hd & _).
  - exact example_tcp_openvpn.
  - reflexivity.
  - right. split; vm_compute; reflexivity.
  - exists r, w', tail. split; [exact Hrun|]. split; [|exact Hd].
    destruct Hmk as [[Hf _] | [_ ->]]; [discriminate Hf | exact Hcalls].
Defined.

Lemma generator_keyerror_is_illegal_protocol_witness :
  (generate_vpn_cert example_enum example_ports example_constants
     keyerror_engine (PStr "tcp") (PSession 1) (PStr "CH#1") example_ips
     None example_world).1 =
    Raise (Wrapping IllegalVPNProtocol (Raised KeyError (PStr "remote_port"))) ∧
  sink (generate_vpn_cert example_enum example_ports example_constants
          keyerror_engine (PStr "tcp") (PSession 1) (PStr "CH#1") example_ips
          None example_world).2 = [].
Proof.
  edestruct (generator_keyerror_is_illegal_protocol example_enum example_ports
               example_constants keyerror_engine "tcp" 1 "CH#1"
               [PStr "1.2.3.4"] None
               (Raised KeyError (PStr "remote_port")) example_world)
    as (H & Hs & _).
  - exact example_enum_distinct.
  - exact example_tcp_openvpn.
  - discriminate.
  - vm_compute. reflexivity.
  - reflexivity.
  - unfold example_ips. rewrite H. split; [reflexivity | exact Hs].
Defined.

(** ** Further properties of the manager *)

Lemma open_w_ret_inv p w w1 :
  open_w p w = (Ret (), w1) →
  writable (fs w) p ∧
  w1 = set_fs (<[p := File EmptyString]> (fs w)) (log_call (EvOpenW p) w).
Proof.
  unfold open_w, writable. cbv zeta.
  destruct (resolve (fs w) p) as [k [x|]|k|k [|]| | |]; try done;
    by intros [= <-].
Qed.

Lemma open_w_raise_inv p w e w1 :
  open_w p w = (Raise e, w1) →
  fs w1 = fs w ∧ ¬ writable (fs w) p ∧
  class_of e ∈
    [IsADirectoryError; FileNotFoundError; NotADirectoryError; ValueError].
Proof.
  unfold open_w, writable. cbv zeta.
  destruct (resolve (fs w) p) as [k [x|]|k|k [|]| | |]; try done;
    intros [= <- <-]; (split; [done|]); (split; [tauto|]);
    apply (bool_decide_unpack _); vm_compute; exact I.
Qed.

Lemma mkdir_error_class r p :
  class_of (mkdir_error r p) ∈
    [FileExistsError; FileNotFoundError; NotADirectoryError; ValueError].
Proof. destruct r; apply (bool_decide_unpack _); vm_compute; exact I. Qed.

Section Runs.
Context (PE : ProtocolEnum.t) (PP : ProtocolPortEnum.t) (K : Constants).
Context (j2 : Engine).

Local Abbreviation run := (generate_vpn_cert PE PP K j2).
Local Abbreviation openvpn := (generate_openvpn_cert PE PP K j2).
Local Abbreviation home := (PROTON_XDG_CACHE_HOME K).
Local Abbreviation path_of c := (default (CACHED_OPENVPN_CERTIFICATE K) c).
Local Abbreviation ports_dict :=
  (<[ProtocolEnum.UDP PE := ProtocolPortEnum.UDP PP]>
     (<[ProtocolEnum.TCP PE := ProtocolPortEnum.TCP PP]>
        (∅ : gmap string pyval))).
Local Abbreviation protocol_dict :=
  (<[ProtocolEnum.WIREGUARD PE := generate_wireguard_cert]>
     (<[ProtocolEnum.IKEV2 PE := generate_strongswan_cert]>
        (<[ProtocolEnum.UDP PE := generate_openvpn_cert PE PP K j2]>
           (<[ProtocolEnum.TCP PE := generate_openvpn_cert PE PP K j2]>
              (∅ : gmap string (pyval → pyval → string → pyval → M pyval)))))).

(** Either a check fails, and the error comes out with the world as it
    was, or the call is the [try] statement run after the recordings. *)
Lemma run_cases protocol session servername ip_list cached w :
  (∃ e, run protocol session servername ip_list cached w = (Raise e, w) ∧
        class_of e ∈ [TypeError; ValueError]) ∨
  (checks_pass protocol session servername ip_list ∧
   run protocol session servername ip_list cached w =
   try_dispatch PE PP K j2 protocol servername ip_list (path_of cached)
     (after_recording servername protocol w)).
Proof.
  destruct (isinstance_str protocol) eqn:E1;
    [destruct (isinstance_Session session) eqn:E2;
      [destruct (isinstance_str servername) eqn:E3;
        [destruct (isinstance_list ip_list) eqn:E4;
          [destruct (Nat.eqb_spec (len ip_list) 0) as [E5|E5]|]|]|]|].
  2:{ right. split; [done | by apply run_checked]. }
  all: left; unfold generate_vpn_cert; rewrite ?E1, ?E2, ?E3, ?E4, ?E5;
    eexists; (split; [reflexivity|]);
    apply (bool_decide_unpack _); done.
Qed.

Lemma write_cert_ret_inv c tpl vars w w' :
  write_cert j2 c tpl vars w = (Ret (), w') →
  ∃ text, render j2 tpl vars = inr text ∧
          fs w' = <[c := File text]> (fs w) ∧ writable (fs w) c.
Proof.
  intros Hrun. unfold write_cert in Hrun.
  destruct (open_w c w) as [[[]|e] w1] eqn:Hopen.
  2:{ by erewrite bind_raise_run in Hrun by exact Hopen. }
  erewrite bind_ret_run in Hrun by exact Hopen.
  apply open_w_ret_inv in Hopen as [Hw ->].
  unfold template_render, lift_result, mbind, M_bind in Hrun.
  destruct (render j2 tpl vars) as [e|text]; [done|].
  exists text. split; [done|]. split; [|done].
  edestruct (f_write_opened c text) as (w2 & Hw2 & Hfs & _);
    [exact Hw | | rewrite Hw2 in Hrun; injection Hrun as <-; exact Hfs].
  world. reflexivity.
Qed.

Lemma write_cert_raise_inv c tpl vars w e w' :
  write_cert j2 c tpl vars w = (Raise e, w') →
  (¬ writable (fs w) c ∧ fs w' = fs w ∧
   class_of e ∈
     [IsADirectoryError; FileNotFoundError; NotADirectoryError; ValueError]) ∨
  (writable (fs w) c ∧ render j2 tpl vars = inl e ∧
   fs w' = <[c := File EmptyString]> (fs w)).
Proof.
  intros Hrun. unfold write_cert in Hrun.
  destruct (open_w c w) as [[[]|e0] w1] eqn:Hopen.
  2:{ erewrite bind_raise_run in Hrun by exact Hopen.
      injection Hrun as <- <-. left.
      apply open_w_raise_inv in Hopen as (? & ? & ?). done. }
  erewrite bind_ret_run in Hrun by exact Hopen.
  apply open_w_ret_inv in Hopen as [Hw ->].
  unfold template_render, lift_result, mbind, M_bind in Hrun.
  destruct (render j2 tpl vars) as [e1|text].
  - injection Hrun as <- <-. right. by repeat split.
  - edestruct (f_write_opened c text) as (w2 & Hw2 & _);
      [exact Hw | | rewrite Hw2 in Hrun; done].
    world. reflexivity.
Qed.

Lemma write_cert_run c tpl vars text w :
  writable (fs w) c →
  render j2 tpl vars = inr text →
  ∃ w', write_cert j2 c tpl vars w = (Ret (), w') ∧
        fs w' = <[c := File text]> (fs w).
Proof.
  intros Hw Hrender. unfold write_cert, template_render.
  erewrite bind_ret_run by (by apply open_w_ok).
  erewrite bind_ret_run by (unfold lift_result; by rewrite Hrender).
  edestruct (f_write_opened c text) as (w' & Hrun & Hfs & _);
    [exact Hw | | exists w'; split; [exact Hrun | exact Hfs]].
  world. reflexivity.
Qed.

Lemma try_except_inv {A} (m : M A) h w r w' :
  try_except m h w = (r, w') →
  (∃ a, m w = (Ret a, w') ∧ r = Ret a) ∨
  (∃ e w1, m w = (Raise e, w1) ∧ h e w1 = (r, w')).
Proof.
  unfold try_except. destruct (m w) as [[a|e] w1].
  - intros [= <- <-]. left. by exists a.
  - intros Hh. right. by exists e, w1.
Qed.

Lemma ensure_raise_inv w e w' :
  ensure_cache_dir K w = (Raise e, w') →
  fs w' = fs w ∧ is_dir (fs w) home = false ∧
  (is_Some (fs w !! home) ∨ parent_is_dir (fs w) home = false) ∧
  e = mkdir_error (resolve (fs w) home) home.
Proof.
  unfold ensure_cache_dir, mbind, M_bind, mret, M_ret, os_path_isdir, os_mkdir.
  cbv zeta. world. destruct (is_dir (fs w) home); cbn [negb]; [done|]. world.
  unfold lookup, fs_lookup, parent_is_dir.
  destruct (resolve (fs w) home) as [k n|k|k sl| | |]; try done;
    intros [= <- <-]; repeat split; eauto.
Qed.

Lemma ensure_cache_dir_fails w :
  is_dir (fs w) home = false →
  is_Some (fs w !! home) ∨ parent_is_dir (fs w) home = false →
  ∃ w', ensure_cache_dir K w =
          (Raise (mkdir_error (resolve (fs w) home) home), w') ∧
        fs w' = fs w ∧ sink w' = sink w.
Proof.
  intros Hd Hbad.
  unfold ensure_cache_dir, mbind, M_bind, mret, M_ret, os_path_isdir, os_mkdir.
  cbv zeta. world. rewrite Hd. cbn [negb]. world. revert Hbad.
  unfold lookup, fs_lookup, parent_is_dir.
  destruct (resolve (fs w) home) as [k n|k|k sl| | |];
    try (intros _; by eexists).
  intros [[n Hn] | ?]; done.
Qed.

(** The four ways a run of the OpenVPN generator can go. *)
Lemma openvpn_cases s l c p w r w' :
  openvpn s l c p w = (r, w') →
  (∃ e, r = Raise e ∧ w' = w ∧
        (class_of e = KeyError → ∀ q, p = PStr q → ports_dict !! q = None)) ∨
  (∃ q port,
     p = PStr q ∧ ports_dict !! q = Some port ∧
     ((∃ e, get_template j2 (TEMPLATES K) (OPENVPN_TEMPLATE K) = inl e ∧
            r = Raise e ∧
            w' = log_call (EvGetTemplate (TEMPLATES K) (OPENVPN_TEMPLATE K)) w) ∨
      (∃ tpl,
         get_template j2 (TEMPLATES K) (OPENVPN_TEMPLATE K) = inr tpl ∧
         ((∃ e, ensure_cache_dir K
                  (log_call (EvGetTemplate (TEMPLATES K) (OPENVPN_TEMPLATE K)) w)
                = (Raise e, w') ∧ r = Raise e) ∨
          (∃ w2 rw,
             ensure_cache_dir K
               (log_call (EvGetTemplate (TEMPLATES K) (OPENVPN_TEMPLATE K)) w)
             = (Ret (), w2) ∧
             write_cert j2 c tpl (j2_values_of p l port) w2 = (rw, w') ∧
             r = match rw with
                 | Ret _ => Ret (PStr c)
                 | Raise e => Raise e
                 end))))).
Proof.
  intros Hrun. unfold generate_openvpn_cert in Hrun. cbv zeta in Hrun.
  match type of Hrun with (getitem ?d ?k ≫= ?f) _ = _ =>
    destruct (getitem_bind_cases d k f w) as [(q & port & -> & Hl & E)|(e & E & He)]
  end; rewrite E in Hrun; clear E.
  2:{ injection Hrun as <- <-. left. by exists e. }
  right. exists q, port. split; [done|]. split; [done|].
  unfold j2_get_template, lift_result in Hrun.
  unfold mbind at 1, M_bind at 1 in Hrun.
  destruct (get_template j2 (TEMPLATES K) (OPENVPN_TEMPLATE K)) as [e|tpl].
  { injection Hrun as <- <-. left. by exists e. }
  right. exists tpl. split; [done|].
  unfold mbind at 1, M_bind at 1 in Hrun.
  destruct (ensure_cache_dir K _) as [[[]|e] w2] eqn:Hens.
  2:{ injection Hrun as <- <-. left. by exists e. }
  right. unfold mbind at 1, M_bind at 1 in Hrun.
  destruct (write_cert j2 c tpl _ w2) as [[[]|e] w3] eqn:Hw;
    injection Hrun as <- <-; eexists _, _;
    (split; [reflexivity|]); (split; [exact Hw | reflexivity]).
Qed.

Lemma dispatch_body_sink protocol s l c :
  keeps sink (getitem protocol_dict protocol ≫= λ g, g s l c protocol).
Proof.
  apply keeps_getitem_bind. intros p g Hg.
  destruct (protocol_dict_range PE PP K j2 p g Hg) as [-> | [-> | ->]];
    [unfold generate_wireguard_cert | unfold generate_strongswan_cert
    | apply openvpn_sink]; frame.
Qed.

(** X6: called on its own with a protocol string that is neither TCP nor
    UDP, the OpenVPN generator raises [KeyError(protocol)] from its port
    table before it does anything else: the world is as it was. *)
Theorem openvpn_unknown_protocol s l c p w :
  p ∉ [ProtocolEnum.TCP PE; ProtocolEnum.UDP PE] →
  generate_openvpn_cert PE PP K j2 s l c (PStr p) w =
  (Raise (Raised KeyError (PStr p)), w).
Proof.
  rewrite elem_of_pair. intros Hp. unfold generate_openvpn_cert. cbv zeta.
  apply bind_raise_run, getitem_unknown. rewrite ports_dict_lookup.
  repeat case_decide; try done; exfalso; apply Hp; auto.
Qed.

(** X1: the only errors [generate_vpn_cert] lets out are [TypeError],
    [ValueError], [IllegalVPNProtocol] and [TemplateNotFound].  When one
    comes out nothing has been sent to the crash-report sink, and the first
    two come out with the whole world as it was. *)
Theorem escaping_errors protocol session servername ip_list cached w e w' :
  run protocol session servername ip_list cached w = (Raise e, w') →
  class_of e ∈ [TypeError; ValueError; IllegalVPNProtocol; TemplateNotFound] ∧
  sink w' = sink w ∧
  (class_of e ∈ [TypeError; ValueError] → w' = w).
Proof.
  intros Hrun.
  destruct (run_cases protocol session servername ip_list cached w)
    as [(e0 & Hrun0 & Hc) | (_ & Hrun0)]; rewrite Hrun0 in Hrun.
  { injection Hrun as <- <-. repeat split.
    apply elem_of_pair in Hc as [-> | ->]; apply (bool_decide_unpack _); done. }
  unfold try_dispatch in Hrun. cbv zeta in Hrun.
  apply try_except_inv in Hrun as [(a & _ & ?) | (e0 & w1 & Hb & Hh)]; [done|].
  pose proof (dispatch_body_sink protocol servername ip_list (path_of cached)
                (after_recording servername protocol w)) as Hs.
  rewrite Hb in Hs. cbn [snd] in Hs.
  cbv beta in Hh. repeat case_decide; try done;
    injection Hh as <- <-;
    (split; [apply (bool_decide_unpack _); done|]);
    (split; [done|]); intros [?|?]%elem_of_pair; discriminate.
Qed.

Lemma stub_run g s l c p w :
  g = generate_wireguard_cert ∨ g = generate_strongswan_cert →
  ∃ w', g s l c p w = (Ret (PBool true), w') ∧ fs w' = fs w ∧
        sink w' = sink w.
Proof. intros [-> | ->]; by eexists. Qed.

(** What a successful run of the OpenVPN generator leaves behind. *)
Lemma openvpn_ret_inv s l c p w v w' :
  openvpn s l c p w = (Ret v, w') →
  ∃ q port tpl text,
    p = PStr q ∧ ports_dict !! q = Some port ∧
    get_template j2 (TEMPLATES K) (OPENVPN_TEMPLATE K) = inr tpl ∧
    render j2 tpl (j2_values_of p l port) = inr text ∧
    v = PStr c ∧ is_dir (fs w') home = true ∧
    fs w' !! c = Some (File text).
Proof.
  intros Hrun.
  apply openvpn_cases in Hrun
    as [(e & ? & _) | (q & port & -> & Hl & [(e & _ & ? & _) | (tpl & Ht & H)])];
    try done.
  destruct H as [(e & _ & ?) | (w2 & rw & Hens & Hw & Hr)]; [done|].
  destruct rw as [[]|e]; [|done]. injection Hr as <-.
  apply ensure_cache_dir_post in Hens as Hdir.
  pose proof (write_cert_keeps_dir j2 c tpl (j2_values_of (PStr q) l port)
                home w2 Hdir) as Hdir'.
  rewrite Hw in Hdir'.
  apply write_cert_ret_inv in Hw as (text & Hrender & Hfs & Hwr).
  exists q, port, tpl, text. repeat split; try done.
  rewrite Hfs. by apply insert_file_lookup.
Qed.

(** A run of [generate_vpn_cert] that returns a string went through the
    OpenVPN generator, and the string is the cache path. *)
Lemma run_ret_path_inv protocol session servername ip_list cached w x w' :
  run protocol session servername ip_list cached w = (Ret (PStr x), w') →
  checks_pass protocol session servername ip_list ∧
  ∃ q port tpl text,
    protocol = PStr q ∧
    protocol_dict !! q = Some openvpn ∧
    ports_dict !! q = Some port ∧
    get_template j2 (TEMPLATES K) (OPENVPN_TEMPLATE K) = inr tpl ∧
    render j2 tpl (j2_values_of protocol ip_list port) = inr text ∧
    x = path_of cached ∧ is_dir (fs w') home = true ∧
    fs w' !! x = Some (File text) ∧ sink w' = sink w.
Proof.
  intros Hrun.
  destruct (run_cases protocol session servername ip_list cached w)
    as [(e0 & Hrun0 & _) | (Hc & Hrun0)]; rewrite Hrun0 in Hrun; [done|].
  split; [done|]. unfold try_dispatch in Hrun. cbv zeta in Hrun.
  pose proof (dispatch_body_sink protocol servername ip_list (path_of cached)
                (after_recording servername protocol w)) as Hs.
  apply try_except_inv in Hrun as [(a & Hb & [= <-]) | (e0 & w1 & Hb & Hh)].
  2:{ cbv beta in Hh. by repeat case_decide. }
  rewrite Hb in Hs. cbn [snd] in Hs.
  match type of Hb with (getitem ?d ?k ≫= ?f) ?w0 = _ =>
    destruct (getitem_bind_cases d k f w0) as [(q & g & -> & Hl & E)|(e & E & _)]
  end; rewrite E in Hb; [|done].
  destruct (protocol_dict_range PE PP K j2 q g Hl) as [-> | [-> | ->]];
    [by injection Hb | by injection Hb |].
  apply openvpn_ret_inv in Hb
    as (q' & port & tpl & text & [= <-] & Hp & Ht & Hr & [= <-] & Hd & Hf).
  exists q, port, tpl, text. by repeat split.
Qed.

(** The OpenVPN generator run again where its certificate already is. *)
Lemma openvpn_rerun s l c q port tpl text w :
  ports_dict !! q = Some port →
  get_template j2 (TEMPLATES K) (OPENVPN_TEMPLATE K) = inr tpl →
  render j2 tpl (j2_values_of (PStr q) l port) = inr text →
  is_dir (fs w) home = true →
  fs w !! c = Some (File text) →
  ∃ w', openvpn s l c (PStr q) w = (Ret (PStr c), w') ∧ fs w' = fs w.
Proof.
  intros Hp Ht Hr Hd Hf. unfold generate_openvpn_cert. cbv zeta.
  erewrite bind_ret_run by (by apply getitem_known).
  unfold j2_get_template.
  erewrite bind_ret_run by (unfold lift_result; by rewrite Ht).
  erewrite bind_ret_run by (by apply ensure_cache_dir_present).
  destruct (write_cert_run c tpl (j2_values_of (PStr q) l port) text
              (log_call (EvIsdir home)
                 (log_call (EvGetTemplate (TEMPLATES K) (OPENVPN_TEMPLATE K)) w)))
    as (w' & Hw & Hfs); [world; by eapply lookup_file_writable | done |].
  erewrite bind_ret_run by exact Hw.
  exists w'. split; [done|]. rewrite Hfs. world. by apply insert_file_id.
Qed.

(** X2: what the call returns tells what happened.  The cache path: the
    protocol is TCP or UDP, the template was found and rendered with the
    protocol, the list and the one-element port list, the file at the path
    holds exactly that text, and the crash-report sink was not called.
    [True]: a stub ran, the file system and the sink are as before.
    [None]: exactly one failure, neither a [KeyError] nor a
    [TemplateNotFound], was captured.  Nothing else is ever returned. *)
Theorem return_values protocol session servername ip_list cached w v w' :
  run protocol session servername ip_list cached w = (Ret v, w') →
  (v = PStr (path_of cached) ∧ sink w' = sink w ∧
   ∃ q port tpl text,
     protocol = PStr q ∧
     (q, port) ∈ [(ProtocolEnum.TCP PE, ProtocolPortEnum.TCP PP);
                  (ProtocolEnum.UDP PE, ProtocolPortEnum.UDP PP)] ∧
     get_template j2 (TEMPLATES K) (OPENVPN_TEMPLATE K) = inr tpl ∧
     render j2 tpl
       (<["openvpn_ports" := PList [port]]>
          (<["serverlist" := ip_list]>
             (<["openvpn_protocol" := protocol]> ∅))) = inr text ∧
     fs w' !! path_of cached = Some (File text)) ∨
  (v = PBool true ∧ sink w' = sink w ∧ fs w' = fs w) ∨
  (v = PNone ∧
   ∃ e, sink w' = sink w ++ [e] ∧ class_of e ∉ [KeyError; TemplateNotFound]).
Proof.
  intros Hrun.
  destruct (run_cases protocol session servername ip_list cached w)
    as [(e0 & Hrun0 & _) | (Hc & Hrun0)]; [by rewrite Hrun0 in Hrun|].
  pose proof Hrun as Hrun'. rewrite Hrun0 in Hrun.
  unfold try_dispatch in Hrun. cbv zeta in Hrun.
  pose proof (dispatch_body_sink protocol servername ip_list (path_of cached)
                (after_recording servername protocol w)) as Hs.
  apply try_except_inv in Hrun as [(a & Hb & [= <-]) | (e0 & w1 & Hb & Hh)].
  - match type of Hb with (getitem ?d ?k ≫= ?f) ?w0 = _ =>
      destruct (getitem_bind_cases d k f w0) as [(q & g & -> & Hl & E)|(e & E & _)]
    end; rewrite E in Hb; [|done].
    destruct (protocol_dict_range PE PP K j2 q g Hl) as [-> | [-> | ->]].
    + right. left. injection Hb as <- <-. by repeat split.
    + right. left. injection Hb as <- <-. by repeat split.
    + left. apply openvpn_ret_inv in Hb as (_ & _ & _ & _ & _ & _ & _ & _ & -> & _).
      apply run_ret_path_inv in Hrun'
        as (_ & q' & port & tpl & text & [= <-] & _ & Hp & Ht & Hr & _ & _ & Hf
            & Hsink).
      split; [done|]. split; [done|]. exists q, port, tpl, text.
      repeat split; try done. by apply ports_dict_member.
  - right. right. rewrite Hb in Hs. cbn [snd] in Hs. cbv beta in Hh.
    repeat case_decide; try done.
    injection Hh as <- <-. split; [done|]. exists e0. world.
    split; [by rewrite Hs|]. rewrite elem_of_pair. tauto.
Qed.

(** X3: a call that returned the cache path can be repeated at once: the
    second call returns the same path and leaves the file system exactly as
    the first one left it. *)
Theorem regenerate_is_idempotent
    protocol session servername ip_list cached w x w1 :
  generate_vpn_cert PE PP K j2 protocol session servername ip_list cached w =
    (Ret (PStr x), w1) →
  ∃ w2,
    generate_vpn_cert PE PP K j2 protocol session servername ip_list cached
      w1 = (Ret (PStr x), w2) ∧
    fs w2 = fs w1.
Proof.
  intros Hrun.
  apply run_ret_path_inv in Hrun
    as (Hc & q & port & tpl & text & -> & Hl & Hp & Ht & Hr & -> & Hd & Hf & _).
  rewrite run_checked by done. unfold try_dispatch. cbv zeta.
  destruct (openvpn_rerun servername ip_list (path_of cached) q port tpl text
              (after_recording servername (PStr q) w1))
    as (w2 & Hrun2 & Hfs); try done.
  exists w2. split; [|done].
  erewrite try_ret_run; [reflexivity|].
  erewrite bind_ret_run by (by apply getitem_known). exact Hrun2.
Qed.

(** X4: the path a call returned can be handed to
    [delete_cached_certificate]: the deletion succeeds, the file is gone,
    and deleting a second time fails with [FileNotFoundError]. *)
Theorem generate_then_delete
    protocol session servername ip_list cached w x w1 :
  run protocol session servername ip_list cached w = (Ret (PStr x), w1) →
  ∃ w2,
    delete_cached_certificate x w1 = (Ret (), w2) ∧
    fs w2 !! x = None ∧
    (delete_cached_certificate x w2).1 =
      Raise (Raised FileNotFoundError (PStr x)).
Proof.
  intros Hrun.
  apply run_ret_path_inv in Hrun
    as (_ & _ & _ & _ & text & _ & _ & _ & _ & _ & _ & _ & Hf & _).
  apply fs_lookup_found in Hf as [k Hk].
  destruct (delete_file (fs w1) x k text Hk) as [Hdel Hres].
  unfold delete_cached_certificate, os_remove. cbv zeta. rewrite Hk.
  eexists. split; [reflexivity|]. world. rewrite Hdel.
  unfold lookup, fs_lookup. by rewrite Hres.
Qed.

Lemma write_cert_render_fails c tpl vars e w :
  writable (fs w) c →
  render j2 tpl vars = inl e →
  ∃ w', write_cert j2 c tpl vars w = (Raise e, w') ∧
        fs w' = <[c := File EmptyString]> (fs w) ∧ sink w' = sink w.
Proof.
  intros Hw Hrender. unfold write_cert, template_render.
  erewrite bind_ret_run by (by apply open_w_ok).
  eexists. split.
  - apply bind_raise_run. unfold lift_result. by rewrite Hrender.
  - done.
Qed.

Lemma open_w_dir p w :
  is_dir (fs w) p = true →
  open_w p w = (Raise (Raised IsADirectoryError (PStr p)),
                log_call (EvOpenW p) w).
Proof. intros [k Hk]%is_dir_found. unfold open_w. by rewrite Hk. Qed.

(** X5: the cache file is opened, and so emptied, before the template is
    rendered.  When the rendering fails the certificate of an earlier run
    is lost: the file is left empty and the call does not return the
    path. *)
Theorem render_failure_truncates p port u s ips cached tpl e old w :
  NoDup (ProtocolEnum.members PE) →
  (p, port) ∈ [(ProtocolEnum.TCP PE, ProtocolPortEnum.TCP PP);
               (ProtocolEnum.UDP PE, ProtocolPortEnum.UDP PP)] →
  ips ≠ [] →
  get_template j2 (TEMPLATES K) (OPENVPN_TEMPLATE K) = inr tpl →
  render j2 tpl
    (<["openvpn_ports" := PList [port]]>
       (<["serverlist" := PList ips]>
          (<["openvpn_protocol" := PStr p]> ∅))) = inl e →
  is_dir (fs w) home = true →
  fs w !! path_of cached = Some (File old) →
  ∃ r w',
    run (PStr p) (PSession u) (PStr s) (PList ips) cached w = (r, w') ∧
    fs w' = <[path_of cached := File EmptyString]> (fs w) ∧
    ∀ v, r ≠ Ret (PStr v).
Proof.
  intros Hd Hp Hips Ht Hr Hdir Hf.
  assert (ProtocolEnum.TCP PE ≠ ProtocolEnum.UDP PE) as Hne.
  { unfold ProtocolEnum.members in Hd. apply NoDup_cons in Hd as [Hd _].
    by apply not_elem_of_cons in Hd as [Hd _]. }
  assert (p ∈ [ProtocolEnum.TCP PE; ProtocolEnum.UDP PE]) as Hp'.
  { apply elem_of_pair. apply elem_of_pair in Hp as [[= -> _] | [= -> _]]; auto. }
  rewrite run_openvpn by done.
  assert (∃ w1, openvpn (PStr s) (PList ips) (path_of cached) (PStr p)
                  (after_recording (PStr s) (PStr p) w) = (Raise e, w1) ∧
                fs w1 = <[path_of cached := File EmptyString]> (fs w))
    as (w1 & Hrun & Hfs).
  { unfold generate_openvpn_cert. cbv zeta.
    erewrite bind_ret_run by (by apply ports_lookup).
    unfold j2_get_template.
    erewrite bind_ret_run by (unfold lift_result; by rewrite Ht).
    erewrite bind_ret_run by (by apply ensure_cache_dir_present).
    edestruct (write_cert_render_fails (path_of cached) tpl
                 (j2_values_of (PStr p) (PList ips) port) e)
      as (w1 & Hw & Hfs & _); [| exact Hr |].
    2:{ exists w1. split; [by apply bind_raise_run | exact Hfs]. }
    world. by eapply lookup_file_writable. }
  erewrite try_raise_run by exact Hrun.
  repeat case_decide; eexists _, _; (split; [reflexivity|]); by split.
Qed.

(** X8: the cache directory is made with [os.mkdir], one level only.  When
    it is not there and cannot be made, because another entry has its name,
    a name on the way to it is missing or a file stands on the way, the
    call returns [None], the file system is as before and the error of
    [os.mkdir] is in the crash-report sink: [FileExistsError] when the name
    is taken, [NotADirectoryError] when a file stands on the way,
    [FileNotFoundError] when a name on the way is missing. *)
Theorem cache_dir_not_creatable p u s ips cached tpl w :
  NoDup (ProtocolEnum.members PE) →
  p ∈ [ProtocolEnum.TCP PE; ProtocolEnum.UDP PE] →
  ips ≠ [] →
  get_template j2 (TEMPLATES K) (OPENVPN_TEMPLATE K) = inr tpl →
  is_dir (fs w) home = false →
  is_Some (fs w !! home) ∨ parent_is_dir (fs w) home = false →
  ∃ e w',
    run (PStr p) (PSession u) (PStr s) (PList ips) cached w = (Ret PNone, w') ∧
    fs w' = fs w ∧
    sink w' = sink w ++ [e] ∧
    e = mkdir_error (resolve (fs w) home) home ∧
    class_of e ∈
      [FileExistsError; FileNotFoundError; NotADirectoryError; ValueError] ∧
    (is_Some (fs w !! home) → e = Raised FileExistsError (PStr home)) ∧
    (resolve (fs w) home = NotDir →
       e = Raised NotADirectoryError (PStr home)) ∧
    (resolve (fs w) home = NoEntry →
       e = Raised FileNotFoundError (PStr home)).
Proof.
  intros Hd Hp Hips Ht Hdir Hbad. rewrite run_openvpn by done.
  destruct (openvpn_prefix PE PP K j2 (PStr s) (PList ips) (path_of cached) p tpl
              (after_recording (PStr s) (PStr p) w) Hp Ht) as (port & _ & Hpre).
  edestruct (ensure_cache_dir_fails
               (log_call (EvGetTemplate (TEMPLATES K) (OPENVPN_TEMPLATE K))
                  (after_recording (PStr s) (PStr p) w)))
    as (w1 & Hens & Hfs & Hsink); [exact Hdir | exact Hbad |].
  world.
  pose proof (mkdir_error_class (resolve (fs w) home) home) as He.
  erewrite try_raise_run by (rewrite Hpre; apply bind_raise_run; exact Hens).
  eexists _, _. rewrite !decide_False.
  2,3: intros Hc; rewrite Hc in He; apply (bool_decide_pack _) in He;
    vm_compute in He; destruct He.
  split; [reflexivity|]. world. rewrite Hfs, Hsink.
  repeat split; try done.
  - intros [n Hn]. revert Hn. unfold lookup, fs_lookup.
    by destruct (resolve (fs w) home).
  - by intros ->.
  - by intros ->.
Qed.

(** X9: the template is looked up before the file system is touched.
    When the lookup fails, with whatever error, neither the cache directory
    nor the cache file has been created or changed: after the two
    recordings the only calls are the lookup and, for an error that is
    swallowed, its capture. *)
Theorem template_lookup_precedes_files p u s ips cached e w :
  NoDup (ProtocolEnum.members PE) →
  p ∈ [ProtocolEnum.TCP PE; ProtocolEnum.UDP PE] →
  ips ≠ [] →
  get_template j2 (TEMPLATES K) (OPENVPN_TEMPLATE K) = inl e →
  ∃ r w' tail,
    run (PStr p) (PSession u) (PStr s) (PList ips) cached w = (r, w') ∧
    fs w' = fs w ∧
    calls w' = calls w ++
      [EvSaveServername (PStr s); EvSaveProtocol (PStr p);
       EvGetTemplate (TEMPLATES K) (OPENVPN_TEMPLATE K)] ++ tail ∧
    (tail = [] ∨ tail = [EvCapture e]).
Proof.
  intros Hd Hp Hips Ht. rewrite run_openvpn by done.
  destruct (ports_dict_known PE PP p Hp) as [port Hport].
  erewrite try_raise_run.
  2:{ unfold generate_openvpn_cert. cbv zeta.
      erewrite bind_ret_run by (by apply getitem_known).
      unfold j2_get_template. apply bind_raise_run.
      unfold lift_result. by rewrite Ht. }
  repeat case_decide.
  - eexists _, _, []. split; [reflexivity|]. world.
    rewrite <- !app_assoc. split; [done|]. split; [done | by left].
  - eexists _, _, []. split; [reflexivity|]. world.
    rewrite <- !app_assoc. split; [done|]. split; [done | by left].
  - eexists _, _, [EvCapture e]. split; [reflexivity|]. world.
    rewrite <- !app_assoc. split; [done|]. split; [done | by right].
Qed.

(** X11: when the cache path names a directory, be it the cache directory
    itself, the file cannot be opened: the call returns [None] with the
    [IsADirectoryError] in the crash-report sink, and the cache directory,
    made if it was absent, stays: the file system is the one the call
    started with but for that directory, every entry the directory's path
    does not lead to being as before. *)
Theorem cache_path_is_directory p u s ips cached tpl w :
  NoDup (ProtocolEnum.members PE) →
  p ∈ [ProtocolEnum.TCP PE; ProtocolEnum.UDP PE] →
  ips ≠ [] →
  get_template j2 (TEMPLATES K) (OPENVPN_TEMPLATE K) = inr tpl →
  is_dir (fs w) home = true ∨
    (fs w !! home = None ∧ parent_is_dir (fs w) home = true) →
  is_dir (fs w) (path_of cached) = true ∨ path_of cached = home →
  ∃ w',
    run (PStr p) (PSession u) (PStr s) (PList ips) cached w = (Ret PNone, w') ∧
    sink w' = sink w ++ [Raised IsADirectoryError (PStr (path_of cached))] ∧
    is_dir (fs w') home = true ∧
    fs w' = with_cache_dir K (fs w) ∧
    ∀ k, res_key (resolve (fs w) home) ≠ Some k →
         entries (fs w') !! k = entries (fs w) !! k.
Proof.
  intros Hd Hp Hips Ht Hdir Hpath. rewrite run_openvpn by done.
  destruct (openvpn_prefix PE PP K j2 (PStr s) (PList ips) (path_of cached) p tpl
              (after_recording (PStr s) (PStr p) w) Hp Ht) as (port & _ & Hpre).
  set (w0 := log_call _ (after_recording (PStr s) (PStr p) w)) in Hpre.
  destruct (ensure_cache_dir_ok K w0)
    as (w2 & mk & Hens & Hfs & Hhome & _ & Hsink & _); [exact Hdir|].
  assert (is_dir (fs w2) (path_of cached) = true) as Hisdir.
  { destruct Hpath as [Hq | ->]; [|done]. rewrite Hfs. subst w0. world.
    unfold with_cache_dir. destruct Hdir as [-> | [Hnone Hpar]]; [done|].
    assert (is_dir (fs w) home = false) as ->
      by (unfold is_dir; by rewrite Hnone).
    by apply mkdir_keeps_dir. }
  erewrite try_raise_run.
  2:{ rewrite Hpre. erewrite bind_ret_run by exact Hens. apply bind_raise_run.
      unfold write_cert. apply bind_raise_run. by apply open_w_dir. }
  rewrite !decide_False by done.
  eexists. split; [reflexivity|]. subst w0. world.
  rewrite Hsink. repeat split; try done.
  intros k Hk. rewrite Hfs. by apply with_cache_dir_other.
Qed.

End Runs.

(** *** Computations that do not look at the connection state *)

Lemma alike_ret {A} (a : A) : alike (mret a) (mret a).
Proof. by intros w1 w2 H. Qed.

Lemma alike_raise {A} e : alike (@raise A e) (@raise A e).
Proof. by intros w1 w2 H. Qed.

Lemma alike_bind {A C} (m1 m2 : M A) (k1 k2 : A → M C) :
  alike m1 m2 → (∀ a, alike (k1 a) (k2 a)) → alike (m1 ≫= k1) (m2 ≫= k2).
Proof.
  intros Hm Hk w1 w2 H. unfold mbind, M_bind.
  destruct (Hm w1 w2 H) as [Hr Hw].
  destruct (m1 w1) as [[a1|e1] w1'], (m2 w2) as [[a2|e2] w2'];
    cbn [fst snd] in *; try done.
  - injection Hr as ->. by apply Hk.
  - by injection Hr as ->.
Qed.

Lemma alike_try {A} (m1 m2 : M A) (h1 h2 : exn → M A) :
  alike m1 m2 → (∀ e, alike (h1 e) (h2 e)) →
  alike (try_except m1 h1) (try_except m2 h2).
Proof.
  intros Hm Hh w1 w2 H. unfold try_except.
  destruct (Hm w1 w2 H) as [Hr Hw].
  destruct (m1 w1) as [[a1|e1] w1'], (m2 w2) as [[a2|e2] w2'];
    cbn [fst snd] in *; try done.
  injection Hr as ->. by apply Hh.
Qed.

Lemma alike_getitem {A} (d : gmap string A) k : alike (getitem d k) (getitem d k).
Proof. intros w1 w2 H. unfold getitem. by repeat case_match. Qed.

Lemma alike_getitem_bind {A C} (d : gmap string A) k (f1 f2 : A → M C) :
  (∀ p a, d !! p = Some a → alike (f1 a) (f2 a)) →
  alike (getitem d k ≫= f1) (getitem d k ≫= f2).
Proof.
  intros Hf w1 w2 H. unfold mbind, M_bind, getitem.
  destruct k as [| | |p| |]; try done.
  destruct (d !! p) as [a|] eqn:E; [by eapply Hf | done].
Qed.

Ltac alike_prim :=
  intros w1 w2 (Hf & Hs & Ho); unfold same_effects;
  cbv beta delta
    [os_path_isdir os_mkdir open_w f_write print capture_exception
     effect lift_result];
  cbv zeta; world; rewrite ?Hf, ?Hs, ?Ho; repeat case_match; by repeat split.

Lemma isdir_alike p : alike (os_path_isdir p) (os_path_isdir p).
Proof. alike_prim. Qed.

Lemma mkdir_alike p : alike (os_mkdir p) (os_mkdir p).
Proof. alike_prim. Qed.

Lemma open_alike p : alike (open_w p) (open_w p).
Proof. alike_prim. Qed.

Lemma write_alike p t : alike (f_write p t) (f_write p t).
Proof. alike_prim. Qed.

Lemma print_alike s : alike (print s) (print s).
Proof. alike_prim. Qed.

Lemma capture_alike e : alike (capture_exception e) (capture_exception e).
Proof. alike_prim. Qed.

Lemma lift_alike {A} ev (r : exn + A) : alike (lift_result ev r) (lift_result ev r).
Proof. alike_prim. Qed.

Create HintDb alike.
#[export] Hint Resolve
  alike_ret alike_raise alike_bind alike_try alike_getitem
  isdir_alike mkdir_alike open_alike write_alike print_alike capture_alike
  lift_alike : alike.

Ltac alike_tac :=
  repeat first
    [ progress auto with alike
    | apply alike_bind | apply alike_try
    | match goal with |- ∀ _, _ => intros ? end
    | case_match ].

Section Independence.
Context (PE : ProtocolEnum.t) (PP : ProtocolPortEnum.t) (K : Constants).
Context (j2 : Engine).

Local Abbreviation run := (generate_vpn_cert PE PP K j2).
Local Abbreviation openvpn := (generate_openvpn_cert PE PP K j2).
Local Abbreviation home := (PROTON_XDG_CACHE_HOME K).
Local Abbreviation path_of c := (default (CACHED_OPENVPN_CERTIFICATE K) c).

(** What a run of the OpenVPN generator does to the file system: it may
    make the cache directory, and then it may give the cache path a
    file. *)
Lemma openvpn_fs_shape s l c p w r w' :
  openvpn s l c p w = (r, w') →
  ∃ f1,
    (f1 = fs w ∨
     ∃ kh sl, resolve (fs w) home = Creatable kh sl ∧
              f1 = set_entry (fs w) kh Dir) ∧
    (fs w' = f1 ∨
     ∃ kp t, opens_at f1 c kp ∧ fs w' = set_entry f1 kp (File t)).
Proof.
  intros Hrun.
  apply (openvpn_cases PE PP K j2) in Hrun
    as [(e & _ & -> & _) |
        (q & port & -> & Hl & [(e & _ & _ & ->) | (tpl & Ht & H)])].
  - exists (fs w). split; by left.
  - exists (fs w). split; by left.
  - destruct H as [(e & Hens & _) | (w2 & rw & Hens & Hw & _)].
    + apply ensure_raise_inv in Hens as (Hfs & _). world.
      exists (fs w). split; by left.
    + exists (fs w2). split.
      * apply ensure_ret_inv in Hens as [[_ ->] | (_ & Hn & Hp & ->)]; world;
          [by left | right].
        destruct (absent_creatable _ _ Hn Hp) as (kh & sl & Hk).
        exists kh, sl. split; [done|].
        by destruct (creatable_insert _ _ _ _ Hk) as (-> & _).
      * assert (∀ t, writable (fs w2) c → fs w' = <[c := File t]> (fs w2) →
                  ∃ kp t, opens_at (fs w2) c kp ∧
                          fs w' = set_entry (fs w2) kp (File t)) as Hopen.
        { intros t [kp Hkp]%writable_opens ->. exists kp, t.
          split; [done | by apply opens_at_insert]. }
        destruct rw as [[]|e].
        -- apply write_cert_ret_inv in Hw as (t & _ & Hfs & Hwr).
           right. by eapply Hopen.
        -- apply write_cert_raise_inv in Hw
             as [(_ & Hfs & _) | (Hwr & _ & Hfs)]; [by left | right].
           by eapply Hopen.
Qed.

Lemma try_dispatch_fs_shape protocol s l c w :
  ∃ f1,
    (f1 = fs w ∨
     ∃ kh sl, resolve (fs w) home = Creatable kh sl ∧
              f1 = set_entry (fs w) kh Dir) ∧
    (fs (try_dispatch PE PP K j2 protocol s l c w).2 = f1 ∨
     ∃ kp t, opens_at f1 c kp ∧
             fs (try_dispatch PE PP K j2 protocol s l c w).2 =
             set_entry f1 kp (File t)).
Proof.
  destruct (try_dispatch PE PP K j2 protocol s l c w) as [r w'] eqn:Hrun.
  cbn [snd]. unfold try_dispatch in Hrun. cbv zeta in Hrun.
  assert (∀ r1 w1,
            (getitem
               (<[ProtocolEnum.WIREGUARD PE := generate_wireguard_cert]>
                  (<[ProtocolEnum.IKEV2 PE := generate_strongswan_cert]>
                     (<[ProtocolEnum.UDP PE := generate_openvpn_cert PE PP K j2]>
                        (<[ProtocolEnum.TCP PE := generate_openvpn_cert PE PP K j2]>
                           ∅)))) protocol ≫= λ g, g s l c protocol) w
            = (r1, w1) →
            ∃ f1,
              (f1 = fs w ∨
               ∃ kh sl, resolve (fs w) home = Creatable kh sl ∧
                        f1 = set_entry (fs w) kh Dir) ∧
              (fs w1 = f1 ∨
               ∃ kp t, opens_at f1 c kp ∧ fs w1 = set_entry f1 kp (File t)))
    as Hbody.
  { intros r1 w1 Hb.
    match type of Hb with (getitem ?d ?k ≫= ?f) ?w0 = _ =>
      destruct (getitem_bind_cases d k f w0) as [(q & g & -> & Hl & E)|(e & E & _)]
    end; rewrite E in Hb.
    2:{ injection Hb as <- <-. exists (fs w). split; by left. }
    destruct (protocol_dict_range PE PP K j2 q g Hl) as [-> | [-> | ->]];
      [injection Hb as <- <-; exists (fs w); split; by left ..|].
    by eapply openvpn_fs_shape. }
  apply try_except_inv in Hrun as [(a & Hb & _) | (e0 & w1 & Hb & Hh)].
  - by eapply Hbody.
  - assert (fs w' = fs w1) as ->; [|by eapply Hbody].
    cbv beta in Hh. repeat case_decide; by injection Hh as <- <-.
Qed.

(** X7: whatever the arguments and the outcome, a call changes at most
    two entries of the file system, the one the cache directory leads to
    and the one the cache path leads to, by whatever spelling: every other
    entry is as before, the working directory too, a directory stays a
    directory and no entry disappears. *)
Theorem file_system_frame protocol session servername ip_list cached w :
  cwd (fs (run protocol session servername ip_list cached w).2) =
    cwd (fs w) ∧
  (∀ k,
     res_key (resolve (fs w) home) ≠ Some k →
     res_key (resolve (fs (run protocol session servername ip_list cached w).2)
                (path_of cached)) ≠ Some k →
     entries (fs (run protocol session servername ip_list cached w).2) !! k =
     entries (fs w) !! k) ∧
  (∀ q, is_dir (fs w) q = true →
     is_dir (fs (run protocol session servername ip_list cached w).2) q = true) ∧
  (∀ k, is_Some (entries (fs w) !! k) →
     is_Some (entries
                (fs (run protocol session servername ip_list cached w).2) !! k)).
Proof.
  destruct (run_cases PE PP K j2 protocol session servername ip_list cached w)
    as [(e0 & -> & _) | (_ & ->)]; [done|].
  destruct (try_dispatch_fs_shape protocol servername ip_list (path_of cached)
              (after_recording servername protocol w)) as (f1 & H1 & H2).
  world.
  set (f' := fs (try_dispatch _ _ _ _ _ _ _ _ _).2) in *. clearbody f'.
  assert (cwd f1 = cwd (fs w) ∧
          (∀ k, res_key (resolve (fs w) home) ≠ Some k →
                entries f1 !! k = entries (fs w) !! k) ∧
          (∀ q, is_dir (fs w) q = true → is_dir f1 q = true) ∧
          (∀ k, is_Some (entries (fs w) !! k) → is_Some (entries f1 !! k)))
    as (Hc1 & He1 & Hd1 & Hs1).
  { destruct H1 as [-> | (kh & sl & Hk & ->)]; [done|].
    destruct (creatable_insert _ _ _ _ Hk) as (_ & _ & Hdiff).
    rewrite Hk. cbn [res_key set_entry entries cwd]. repeat split.
    - intros k Hne. apply lookup_insert_ne. congruence.
    - intros q. by apply is_dir_differs with kh.
    - intros k Hk'. rewrite lookup_insert. by case_decide. }
  destruct H2 as [-> | (kp & t & Hkp & ->)]; [by repeat split; auto|].
  rewrite (opens_at_set f1 _ kp t Hkp).
  cbn [res_key set_entry entries cwd]. repeat split.
  - done.
  - intros k Hh Hp. rewrite lookup_insert_ne by congruence. by apply He1.
  - intros q Hq. apply is_dir_differs with (f := f1) (k := kp);
      [by apply opens_at_differs with (path_of cached) | by apply Hd1].
  - intros k Hk'. rewrite lookup_insert. case_decide; [done | by apply Hs1].
Qed.

Lemma openvpn_alike s l c p : alike (openvpn s l c p) (openvpn s l c p).
Proof.
  unfold generate_openvpn_cert, write_cert, ensure_cache_dir, j2_get_template,
    template_render. cbv zeta. alike_tac.
Qed.

(** The generators do not look at the server name. *)
Lemma try_dispatch_alike protocol s1 s2 l c :
  alike (try_dispatch PE PP K j2 protocol s1 l c)
        (try_dispatch PE PP K j2 protocol s2 l c).
Proof.
  unfold try_dispatch. cbv zeta. apply alike_try.
  - apply alike_getitem_bind. intros p g Hg.
    destruct (protocol_dict_range PE PP K j2 p g Hg) as [-> | [-> | ->]].
    + unfold generate_wireguard_cert. alike_tac.
    + unfold generate_strongswan_cert. alike_tac.
    + exact (openvpn_alike s1 l c protocol).
  - intros e. alike_tac.
Qed.

(** X10: the server name is recorded and nothing else: two calls that
    differ in the server name only, from the same world, give the same
    result (value or error) and leave the same file system, the same
    crash reports and the same output. *)
Theorem servername_only_recorded protocol session s1 s2 ip_list cached w :
  (generate_vpn_cert PE PP K j2 protocol session (PStr s1) ip_list cached w).1 =
  (generate_vpn_cert PE PP K j2 protocol session (PStr s2) ip_list cached w).1 ∧
  fs (generate_vpn_cert PE PP K j2 protocol session (PStr s1) ip_list cached w).2 =
  fs (generate_vpn_cert PE PP K j2 protocol session (PStr s2) ip_list cached w).2 ∧
  sink (generate_vpn_cert PE PP K j2 protocol session (PStr s1) ip_list cached w).2 =
  sink (generate_vpn_cert PE PP K j2 protocol session (PStr s2) ip_list cached w).2 ∧
  stdout (generate_vpn_cert PE PP K j2 protocol session (PStr s1) ip_list cached w).2 =
  stdout (generate_vpn_cert PE PP K j2 protocol session (PStr s2) ip_list cached w).2.
Proof.
  destruct (isinstance_str protocol) eqn:E1;
    [destruct (isinstance_Session session) eqn:E2;
      [destruct (isinstance_list ip_list) eqn:E4;
        [destruct (Nat.eqb_spec (len ip_list) 0) as [E5|E5]|]|]|].
  2:{ rewrite !run_checked by done.
      apply (try_dispatch_alike protocol (PStr s1) (PStr s2) ip_list
               (path_of cached)). done. }
  all: unfold generate_vpn_cert; rewrite ?E1, ?E2, ?E4, ?E5; done.
Qed.

End Independence.

Section Trace.
Context (PE : ProtocolEnum.t) (PP : ProtocolPortEnum.t) (K : Constants).
Context (j2 : Engine).

Local Abbreviation run := (generate_vpn_cert PE PP K j2).
Local Abbreviation home := (PROTON_XDG_CACHE_HOME K).
Local Abbreviation path_of c := (default (CACHED_OPENVPN_CERTIFICATE K) c).

Lemma ensure_ret_trace w w2 :
  ensure_cache_dir K w = (Ret (), w2) →
  (is_dir (fs w) home = true ∧ calls w2 = calls w ++ [EvIsdir home]) ∨
  (is_dir (fs w) home = false ∧
   calls w2 = calls w ++ [EvIsdir home; EvMkdir home]).
Proof.
  intros [[Hd ->] | (Hd & _ & _ & ->)]%ensure_ret_inv; world;
    [by left | right].
  by rewrite <- app_assoc.
Qed.

Lemma write_cert_ret_trace c tpl vars w w' :
  write_cert j2 c tpl vars w = (Ret (), w') →
  ∃ text, render j2 tpl vars = inr text ∧
          fs w' !! c = Some (File text) ∧
          calls w' = calls w ++ [EvOpenW c; EvRender vars; EvWrite c text].
Proof.
  intros Hrun. unfold write_cert in Hrun.
  destruct (open_w c w) as [[[]|e] w1] eqn:Hopen.
  2:{ by erewrite bind_raise_run in Hrun by exact Hopen. }
  erewrite bind_ret_run in Hrun by exact Hopen.
  apply open_w_ret_inv in Hopen as [Hw ->].
  unfold template_render, lift_result, mbind, M_bind in Hrun.
  destruct (render j2 tpl vars) as [e|text]; [done|].
  exists text. split; [done|].
  edestruct (f_write_opened c text) as (w2 & Hw2 & Hfs & _ & _ & _ & Hcalls);
    [exact Hw | | rewrite Hw2 in Hrun; injection Hrun as <-].
  { world. reflexivity. }
  rewrite Hfs, Hcalls. world. rewrite <- !app_assoc.
  split; [by apply insert_file_lookup | done].
Qed.

(** X12: the calls of a run that returned the cache path, in order: the
    two recordings, the template lookup, the directory test, [os.mkdir] if
    and only if the directory was not there, then the opening of the cache
    file, the rendering of the template that was found, with the protocol,
    the list and the one-element port list, and one write of the text the
    rendering gave.  Nothing is printed, captured or removed. *)
Theorem successful_run_trace protocol session servername ip_list cached w x w' :
  run protocol session servername ip_list cached w = (Ret (PStr x), w') →
  ∃ q port tpl text mk,
    protocol = PStr q ∧
    (q, port) ∈ [(ProtocolEnum.TCP PE, ProtocolPortEnum.TCP PP);
                 (ProtocolEnum.UDP PE, ProtocolPortEnum.UDP PP)] ∧
    get_template j2 (TEMPLATES K) (OPENVPN_TEMPLATE K) = inr tpl ∧
    render j2 tpl
      (<["openvpn_ports" := PList [port]]>
         (<["serverlist" := ip_list]>
            (<["openvpn_protocol" := protocol]> ∅))) = inr text ∧
    calls w' = calls w ++
      [EvSaveServername servername; EvSaveProtocol protocol;
       EvGetTemplate (TEMPLATES K) (OPENVPN_TEMPLATE K); EvIsdir home] ++
      mk ++
      [EvOpenW x;
       EvRender
         (<["openvpn_ports" := PList [port]]>
            (<["serverlist" := ip_list]>
               (<["openvpn_protocol" := protocol]> ∅)));
       EvWrite x text] ∧
    (is_dir (fs w) home = true ∧ mk = [] ∨
     is_dir (fs w) home = false ∧ mk = [EvMkdir home]) ∧
    fs w' !! x = Some (File text).
Proof.
  intros Hrun.
  destruct (run_cases PE PP K j2 protocol session servername ip_list cached w)
    as [(e0 & Hrun0 & _) | (Hc & Hrun0)]; rewrite Hrun0 in Hrun; [done|].
  unfold try_dispatch in Hrun. cbv zeta in Hrun.
  apply try_except_inv in Hrun as [(a & Hb & [= <-]) | (e0 & w1 & Hb & Hh)].
  2:{ cbv beta in Hh. by repeat case_decide. }
  match type of Hb with (getitem ?d ?k ≫= ?f) ?w0 = _ =>
    destruct (getitem_bind_cases d k f w0) as [(q & g & -> & Hl & E)|(e & E & _)]
  end; rewrite E in Hb; [|done].
  destruct (protocol_dict_range PE PP K j2 q g Hl) as [-> | [-> | ->]];
    [by injection Hb | by injection Hb |].
  apply openvpn_cases in Hb
    as [(e & ? & _) | (q' & port & [= <-] & Hp & [(e & _ & ? & _) | (tpl & Ht & H)])];
    try done.
  destruct H as [(e & _ & ?) | (w2 & rw & Hens & Hw & Hr)]; [done|].
  destruct rw as [[]|e]; [|done]. injection Hr as ->.
  apply ensure_ret_trace in Hens.
  apply write_cert_ret_trace in Hw as (text & Hrender & Hf & Hcalls).
  apply ports_dict_member in Hp.
  exists q, port, tpl, text.
  destruct Hens as [[Hd Hc2] | [Hd Hc2]];
    [exists [] | exists [EvMkdir home]];
    rewrite Hcalls, Hc2; world; rewrite <- !app_assoc;
    repeat split; auto.
Qed.

End Trace.

(** ** The further properties on the example installation *)

Lemma example_udp_openvpn :
  "udp" ∈ [ProtocolEnum.TCP example_enum; ProtocolEnum.UDP example_enum].
Proof. apply (bool_decide_unpack _). vm_compute. exact I. Defined.

Lemma escaping_errors_witness :
  class_of (Wrapping IllegalVPNProtocol (Raised KeyError (PStr "sstp"))) ∈
    [TypeError; ValueError; IllegalVPNProtocol; TemplateNotFound] ∧
  sink (after_recording (PStr "CH#1") (PStr "sstp") example_world) =
    sink example_world.
Proof.
  edestruct (escaping_errors example_enum example_ports example_constants
               example_engine (PStr "sstp") (PSession 1) (PStr "CH#1")
               example_ips None example_world
               (Wrapping IllegalVPNProtocol (Raised KeyError (PStr "sstp")))
               (after_recording (PStr "CH#1") (PStr "sstp") example_world))
    as (Hc & Hs & _).
  - vm_compute. reflexivity.
  - split; [exact Hc | exact Hs].
Defined.

Lemma return_values_witness :
  fs (generate_vpn_cert example_enum example_ports example_constants
        example_engine (PStr "udp") (PSession 1) (PStr "CH#1")
        example_ips (Some "/tmp/cert.ovpn") example_world).2
    !! "/tmp/cert.ovpn" = Some (File "proto udp;remote 1.2.3.4 1194;").
Proof.
  destruct (return_values example_enum example_ports example_constants
              example_engine (PStr "udp") (PSession 1) (PStr "CH#1")
              example_ips (Some "/tmp/cert.ovpn") example_world
              (PStr "/tmp/cert.ovpn")
              (generate_vpn_cert example_enum example_ports example_constants
                 example_engine (PStr "udp") (PSession 1) (PStr "CH#1")
                 example_ips (Some "/tmp/cert.ovpn") example_world).2)
    as [(_ & _ & q & port & tpl & text & Hq & Hport & _ & Hr & Hf)
       | [(Hv & _) | (Hv & _)]].
  - vm_compute. reflexivity.
  - etrans; [exact Hf|]. f_equal. f_equal.
    injection Hq as <-.
    apply elem_of_cons in Hport as [Hport | Hport];
      [discriminate Hport|].
    apply list_elem_of_singleton in Hport. injection Hport as ->.
    vm_compute in Hr. congruence.
  - discriminate Hv.
  - discriminate Hv.
Defined.

Lemma regenerate_is_idempotent_witness :
  ∃ w2,
    generate_vpn_cert example_enum example_ports example_constants
      example_engine (PStr "tcp") (PSession 1) (PStr "CH#1") example_ips
      (Some "/tmp/cert.ovpn")
      (generate_vpn_cert example_enum example_ports example_constants
         example_engine (PStr "tcp") (PSession 1) (PStr "CH#1") example_ips
         (Some "/tmp/cert.ovpn") example_world).2 =
      (Ret (PStr "/tmp/cert.ovpn"), w2) ∧
    fs w2 =
    fs (generate_vpn_cert example_enum example_ports example_constants
          example_engine (PStr "tcp") (PSession 1) (PStr "CH#1") example_ips
          (Some "/tmp/cert.ovpn") example_world).2.
Proof.
  apply (regenerate_is_idempotent example_enum example_ports example_constants
           example_engine (PStr "tcp") (PSession 1) (PStr "CH#1") example_ips
           (Some "/tmp/cert.ovpn") example_world).
  vm_compute. reflexivity.
Defined.

Lemma generate_then_delete_witness :
  ∃ w2,
    delete_cached_certificate "/tmp/cert.ovpn"
      (generate_vpn_cert example_enum example_ports example_constants
         example_engine (PStr "tcp") (PSession 1) (PStr "CH#1") example_ips
         (Some "/tmp/cert.ovpn") example_world).2 = (Ret (), w2) ∧
    fs w2 !! "/tmp/cert.ovpn" = None ∧
    (delete_cached_certificate "/tmp/cert.ovpn" w2).1 =
      Raise (Raised FileNotFoundError (PStr "/tmp/cert.ovpn")).
Proof.
  apply (generate_then_delete example_enum example_ports example_constants
           example_engine (PStr "tcp") (PSession 1) (PStr "CH#1") example_ips
           (Some "/tmp/cert.ovpn") example_world).
  vm_compute. reflexivity.
Defined.

Lemma render_failure_truncates_witness :
  ∃ r w',
    generate_vpn_cert example_enum example_ports example_constants
      failing_render_engine (PStr "udp") (PSession 1) (PStr "CH#1")
      (PList [PStr "1.2.3.4"]) None cached_world = (r, w') ∧
    fs w' =
      <["/home/user/.cache/protonvpn/ProtonVPN.ovpn" := File EmptyString]>
        (fs cached_world) ∧
    ∀ v, r ≠ Ret (PStr v).
Proof.
  apply (render_failure_truncates example_enum example_ports example_constants
           failing_render_engine "udp" (PInt 1194) 1 "CH#1" [PStr "1.2.3.4"]
           None "openvpn_template.j2"
           (Raised (OtherException "UndefinedError") (PStr "servers"))
           "proto udp;remote 9.9.9.9 1194;" cached_world).
  - exact example_enum_distinct.
  - apply list_elem_of_further, list_elem_of_here.
  - discriminate.
  - reflexivity.
  - reflexivity.
  - vm_compute. reflexivity.
  - vm_compute. reflexivity.
Defined.

Lemma openvpn_unknown_protocol_witness :
  generate_openvpn_cert example_enum example_ports example_constants
    example_engine (PStr "CH#1") example_ips "/tmp/cert.ovpn" (PStr "ikev2")
    example_world =
  (Raise (Raised KeyError (PStr "ikev2")), example_world).
Proof.
  apply (openvpn_unknown_protocol example_enum example_ports example_constants
           example_engine (PStr "CH#1") example_ips "/tmp/cert.ovpn" "ikev2"
           example_world).
  apply (bool_decide_unpack _). vm_compute. exact I.
Defined.

Lemma file_system_frame_witness :
  entries
    (fs (generate_vpn_cert example_enum example_ports example_constants
           example_engine (PStr "tcp") (PSession 1) (PStr "CH#1") example_ips
           (Some "/tmp//cert.ovpn") cached_tmp_world).2) !! ["tmp"] =
  entries (fs cached_tmp_world) !! ["tmp"].
Proof.
  apply (file_system_frame example_enum example_ports example_constants
           example_engine (PStr "tcp") (PSession 1) (PStr "CH#1") example_ips
           (Some "/tmp//cert.ovpn") cached_tmp_world);
    vm_compute; discriminate.
Defined.

Lemma cache_dir_not_creatable_witness :
  (∃ w',
     generate_vpn_cert example_enum example_ports example_constants
       example_engine (PStr "tcp") (PSession 1) (PStr "CH#1")
       (PList [PStr "1.2.3.4"]) None blocked_world = (Ret PNone, w') ∧
     fs w' = fs blocked_world ∧
     sink w' = sink blocked_world ++
       [Raised FileExistsError (PStr "/home/user/.cache/protonvpn")]) ∧
  (∃ w',
     generate_vpn_cert example_enum example_ports example_constants
       example_engine (PStr "tcp") (PSession 1) (PStr "CH#1")
       (PList [PStr "1.2.3.4"]) None under_file_world = (Ret PNone, w') ∧
     fs w' = fs under_file_world ∧
     sink w' = sink under_file_world ++
       [Raised NotADirectoryError (PStr "/home/user/.cache/protonvpn")]).
Proof.
  split.
  - destruct (cache_dir_not_creatable example_enum example_ports
                example_constants example_engine "tcp" 1 "CH#1"
                [PStr "1.2.3.4"] None "openvpn_template.j2" blocked_world)
      as (e & w' & Hrun & Hfs & Hsink & _ & _ & He & _).
    + exact example_enum_distinct.
    + exact example_tcp_openvpn.
    + discriminate.
    + reflexivity.
    + vm_compute. reflexivity.
    + left. eexists. vm_compute. reflexivity.
    + exists w'. split; [exact Hrun|]. split; [exact Hfs|].
      rewrite Hsink, He; [reflexivity | eexists; vm_compute; reflexivity].
  - destruct (cache_dir_not_creatable example_enum example_ports
                example_constants example_engine "tcp" 1 "CH#1"
                [PStr "1.2.3.4"] None "openvpn_template.j2" under_file_world)
      as (e & w' & Hrun & Hfs & Hsink & _ & _ & _ & He & _).
    + exact example_enum_distinct.
    + exact example_tcp_openvpn.
    + discriminate.
    + reflexivity.
    + vm_compute. reflexivity.
    + right. vm_compute. reflexivity.
    + exists w'. split; [exact Hrun|]. split; [exact Hfs|].
      rewrite Hsink, He; [reflexivity | vm_compute; reflexivity].
Defined.

Lemma template_lookup_precedes_files_witness :
  ∃ r w' tail,
    generate_vpn_cert example_enum example_ports example_constants
      no_template_engine (PStr "udp") (PSession 1) (PStr "CH#1")
      (PList [PStr "1.2.3.4"]) None example_world = (r, w') ∧
    fs w' = fs example_world ∧
    calls w' = calls example_world ++
      [EvSaveServername (PStr "CH#1"); EvSaveProtocol (PStr "udp");
       EvGetTemplate (TEMPLATES example_constants)
         (OPENVPN_TEMPLATE example_constants)] ++ tail ∧
    (tail = [] ∨
     tail = [EvCapture (Raised TemplateNotFound (PStr "openvpn_template.j2"))]).
Proof.
  apply (template_lookup_precedes_files example_enum example_ports
           example_constants no_template_engine "udp" 1 "CH#1"
           [PStr "1.2.3.4"] None
           (Raised TemplateNotFound (PStr "openvpn_template.j2"))
           example_world).
  - exact example_enum_distinct.
  - exact example_udp_openvpn.
  - discriminate.
  - reflexivity.
Defined.

Lemma cache_path_is_directory_witness :
  ∃ w',
    generate_vpn_cert example_enum example_ports example_constants
      example_engine (PStr "tcp") (PSession 1) (PStr "CH#1")
      (PList [PStr "1.2.3.4"]) (Some "/tmp/") example_world = (Ret PNone, w') ∧
    sink w' = sink example_world ++ [Raised IsADirectoryError (PStr "/tmp/")] ∧
    is_dir (fs w') (PROTON_XDG_CACHE_HOME example_constants) = true ∧
    fs w' = with_cache_dir example_constants (fs example_world) ∧
    ∀ k, res_key (resolve (fs example_world)
                    (PROTON_XDG_CACHE_HOME example_constants)) ≠ Some k →
         entries (fs w') !! k = entries (fs example_world) !! k.
Proof.
  apply (cache_path_is_directory example_enum example_ports example_constants
           example_engine "tcp" 1 "CH#1" [PStr "1.2.3.4"] (Some "/tmp/")
           "openvpn_template.j2" example_world).
  - exact example_enum_distinct.
  - exact example_tcp_openvpn.
  - discriminate.
  - reflexivity.
  - right. split; vm_compute; reflexivity.
  - left. vm_compute. reflexivity.
Defined.

Lemma successful_run_trace_witness :
  ∃ text mk,
    render example_engine "openvpn_template.j2"
      (<["openvpn_ports" := PList [PInt 443]]>
         (<["serverlist" := example_ips]>
            (<["openvpn_protocol" := PStr "tcp"]> ∅))) = inr text ∧
    calls (generate_vpn_cert example_enum example_ports example_constants
             example_engine (PStr "tcp") (PSession 1) (PStr "CH#1")
             example_ips (Some "/tmp/cert.ovpn") example_world).2 =
      calls example_world ++
      [EvSaveServername (PStr "CH#1"); EvSaveProtocol (PStr "tcp");
       EvGetTemplate (TEMPLATES example_constants)
         (OPENVPN_TEMPLATE example_constants);
       EvIsdir (PROTON_XDG_CACHE_HOME example_constants)] ++
      mk ++
      [EvOpenW "/tmp/cert.ovpn";
       EvRender
         (<["openvpn_ports" := PList [PInt 443]]>
            (<["serverlist" := example_ips]>
               (<["openvpn_protocol" := PStr "tcp"]> ∅)));
       EvWrite "/tmp/cert.ovpn" text].
Proof.
  destruct (successful_run_trace example_enum example_ports example_constants
              example_engine (PStr "tcp") (PSession 1) (PStr "CH#1")
              example_ips (Some "/tmp/cert.ovpn") example_world "/tmp/cert.ovpn"
              (generate_vpn_cert example_enum example_ports example_constants
                 example_engine (PStr "tcp") (PSession 1) (PStr "CH#1")
                 example_ips (Some "/tmp/cert.ovpn") example_world).2)
    as (q & port & tpl & text & mk & Hq & Hport & Ht & Hr & Hcalls & _).
  - vm_compute. reflexivity.
  - injection Hq as <-.
    apply elem_of_cons in Hport as [Hport | Hport].
    + injection Hport as <-. injection Ht as <-.
      exists text, mk. split; [exact Hr | exact Hcalls].
    + apply list_elem_of_singleton in Hport. discriminate Hport.
Defined.
